(** * BigBite backend: the route handlers over an explicit document store

    The Express handlers of [routes/restaurant.js], [routes/rating.js],
    [routes/rider.js] and [routes/wishlist.js], and the [toJSON] method of the
    user schema, written as functions from a request and the state of the
    MongoDB collections to a response and the new state.  A JavaScript
    number is an IEEE-754 binary64 value, so numbers are Rocq's primitive
    floats; a string is the sequence of bytes of its UTF-8 encoding; a
    collection is a finite map from [_id] to the document as it is
    stored.  A handler that reads a user gets the stored document with
    the defaults of the schema on the paths it lacks, and [save()] writes
    the document it was given, these defaults included. *)

From Stdlib Require Import PrimFloat Floats.
From stdpp Require Import base option list gmap strings pretty.

Set Warnings "-inexact-float,-register-all".

(** ** JavaScript values and built-ins *)

Module Js.

Definition is_nan (x : float) : bool := negb (PrimFloat.eqb x x).

(** [ToBoolean] of a number: [0], [-0] and [NaN] are falsy. *)
Definition truthy (x : float) : bool :=
  negb (PrimFloat.eqb x 0%float) && negb (is_nan x).

(** [ToBoolean] of an optional number ([undefined] is falsy). *)
Definition truthy_opt (x : option float) : bool :=
  match x with Some v => truthy v | None => false end.

(** [x || d] on an optional number. *)
Definition or_default (x : option float) (d : float) : float :=
  match x with
  | Some v => if truthy v then v else d
  | None => d
  end.

(** [s || d] on an optional string: the empty string is falsy. *)
Definition str_or (s : option string) (d : string) : string :=
  match s with
  | Some v => if decide (v = "") then d else v
  | None => d
  end.

(** [ToBoolean] of an optional string. *)
Definition truthy_str (s : option string) : bool :=
  match s with
  | Some v => if decide (v = "") then false else true
  | None => false
  end.

(** [x ?? d]. *)
Definition nullish {A} (x : option A) (d : A) : A := default d x.

Definition two52 : float := 4503599627370496%float.

(** [Math.floor]: below [2^52] in magnitude, adding and removing [2^52]
    rounds to an integer (to nearest), which is then corrected downwards;
    from [2^52] on every double is an integer. *)
Definition Math_floor (x : float) : float :=
  if PrimFloat.ltb (PrimFloat.abs x) two52 then
    let n := if PrimFloat.leb 0%float x
             then PrimFloat.sub (PrimFloat.add x two52) two52
             else PrimFloat.add (PrimFloat.sub x two52) two52 in
    if PrimFloat.eqb x n then x
    else if PrimFloat.ltb x n then PrimFloat.sub n 1%float else n
  else x.

(** [Math.round] as ECMA-262 defines it: [NaN], the infinities and the
    integers are returned as they are, [(0, 0.5)] gives [+0],
    [[-0.5, 0)] gives [-0], and otherwise the closest integer, the one
    towards [+∞] in case of a tie. *)
Definition Math_round (x : float) : float :=
  if PrimFloat.eqb (Math_floor x) x then x
  else if is_nan x then x
  else if PrimFloat.ltb 0%float x && PrimFloat.ltb x 0.5%float then 0%float
  else if PrimFloat.ltb x 0%float && PrimFloat.leb (-0.5)%float x then (-0)%float
  else
    let f := Math_floor x in
    if PrimFloat.leb 0.5%float (PrimFloat.sub x f)
    then PrimFloat.add f 1%float else f.

Definition Math_PI : float := 3.141592653589793%float.

(** A string is kept as the bytes of its UTF-8 encoding.  [s.length]
    counts UTF-16 code units: one for a character of the Basic
    Multilingual Plane (a byte below 128, or the lead byte of a sequence of
    two or three bytes), two for any other character (the lead byte of a
    sequence of four bytes); a continuation byte counts for nothing. *)
Fixpoint length (s : string) : nat :=
  match s with
  | EmptyString => 0
  | String a s' =>
    let n := Ascii.N_of_ascii a in
    (if (n <? 128)%N then 1
     else if (n <? 192)%N then 0
     else if (n <? 240)%N then 1
     else 2) + length s'
  end.

End Js.

(** ** Documents *)

Abbreviation ObjectId := string (only parsing).

(** A value of a request that a query casts to an ObjectId: one that
    casts, or one that does not, on which the query throws a [CastError]. *)
Inductive IdParam := WellFormed (id : ObjectId) | Malformed (raw : string).

(** Milliseconds since the epoch, as [new Date()] and [Date.now()] give. *)
Abbreviation Date := N (only parsing).

Module Role.

(** The [enum] of the [role] path. *)
Inductive t := customer | rider | restaurant | admin.

End Role.

#[global] Instance Role_eq_dec : EqDecision Role.t.
Proof. solve_decision. Defined.

(** Modelled from the spec: [models/Order.js] is not among the sources; the
    nine values of an order's [status] are the states of §4.1, which are
    also the strings the handlers compare with. *)
Inductive OrderStatus :=
  | pending | accepted | rider_assigned | preparing | ready
  | picked_up | on_the_way | delivered | cancelled.

#[global] Instance OrderStatus_eq_dec : EqDecision OrderStatus.
Proof. solve_decision. Defined.

Module Rating.

(** [{ average, count }] of [restaurantDetails.rating] and
    [riderDetails.rating]. *)
Record t := mk { average : option float; count : option float }.

(** The object literal [{}]. *)
Definition empty : t := mk None None.

(** The defaults of the two paths, given to the ones that are absent:
    [count] has the default 0, [average] the default [average0] of its
    schema (0 for a restaurant, 2.5 for a rider). *)
Definition applyDefaults (average0 : float) (r : t) : t :=
  mk (Some (default average0 (average r))) (Some (default 0%float (count r))).

End Rating.

Module Address.

Record t := mk { latitude : option float; longitude : option float }.

(** The object literal [{}]. *)
Definition empty : t := mk None None.

End Address.

Module RestaurantDetails.

Record t := mk {
  kitchenName : option string;
  description : option string;
  address : option Address.t;
  isKitchenOpen : option bool;
  rating : option Rating.t;
}.

(** The object literal [{}]. *)
Definition empty : t := mk None None None None None.

Definition set_isKitchenOpen (b : bool) (d : t) : t :=
  mk (kitchenName d) (description d) (address d) (Some b) (rating d).

Definition set_rating (r : Rating.t) (d : t) : t :=
  mk (kitchenName d) (description d) (address d) (isKitchenOpen d) (Some r).

(** The defaults of the schema below [restaurantDetails]:
    [isKitchenOpen: true] and [rating: { average: 0, count: 0 }]. *)
Definition applyDefaults (d : t) : t :=
  mk (kitchenName d) (description d) (address d)
     (Some (default true (isKitchenOpen d)))
     (Some (Rating.applyDefaults 0%float (default Rating.empty (rating d)))).

End RestaurantDetails.

Module CurrentLocation.

Record t := mk {
  latitude : option float;
  longitude : option float;
  lastUpdated : option Date;
}.

Definition empty : t := mk None None None.

End CurrentLocation.

Module RiderDetails.

Record t := mk {
  isAvailable : option bool;
  currentLocation : option CurrentLocation.t;
  rating : option Rating.t;
}.

Definition empty : t := mk None None None.

Definition set_isAvailable (b : option bool) (d : t) : t :=
  mk b (currentLocation d) (rating d).

Definition set_currentLocation (l : CurrentLocation.t) (d : t) : t :=
  mk (isAvailable d) (Some l) (rating d).

Definition set_rating (r : Rating.t) (d : t) : t :=
  mk (isAvailable d) (currentLocation d) (Some r).

(** The defaults of the schema below [riderDetails]: [isAvailable: false]
    and [rating: { average: 2.5, count: 0 }]. *)
Definition applyDefaults (d : t) : t :=
  mk (Some (default false (isAvailable d))) (currentLocation d)
     (Some (Rating.applyDefaults 2.5%float (default Rating.empty (rating d)))).

End RiderDetails.

Module User.

(** The paths of the user schema that the handlers below read or write;
    the document's [_id] is its key in the collection. *)
Record t := mk {
  name : string;
  role : Role.t;
  avatar : string;
  restaurantDetails : option RestaurantDetails.t;
  riderDetails : option RiderDetails.t;
}.

Definition set_restaurantDetails (d : RestaurantDetails.t) (u : t) : t :=
  mk (name u) (role u) (avatar u) (Some d) (riderDetails u).

Definition set_riderDetails (d : RiderDetails.t) (u : t) : t :=
  mk (name u) (role u) (avatar u) (restaurantDetails u) (Some d).

(** A stored document as Mongoose hands it out: [restaurantDetails] and
    [riderDetails] are nested paths, hence objects on every document, and
    each path below them that the stored document lacks has the default
    of its schema.  A later [save()] writes these defaults with the
    changes. *)
Definition applyDefaults (u : t) : t :=
  mk (name u) (role u) (avatar u)
     (Some (RestaurantDetails.applyDefaults
              (default RestaurantDetails.empty (restaurantDetails u))))
     (Some (RiderDetails.applyDefaults
              (default RiderDetails.empty (riderDetails u)))).

End User.

Module RatingEntry.

(** [{ value, review, ratedAt }] of [order.restaurantRating] and
    [order.riderRating]. *)
Record t := mk { value : float; review : string; ratedAt : Date }.

End RatingEntry.

Module Order.

(** Modelled from the spec: [models/Order.js] is not among the sources; the
    fields are those of §3 that the handlers use. *)
Record t := mk {
  customer : ObjectId;
  restaurant : ObjectId;
  rider : option ObjectId;
  status : OrderStatus;
  restaurantRating : option RatingEntry.t;
  riderRating : option RatingEntry.t;
}.

Definition set_restaurantRating (r : RatingEntry.t) (o : t) : t :=
  mk (customer o) (restaurant o) (rider o) (status o) (Some r) (riderRating o).

Definition set_riderRating (r : RatingEntry.t) (o : t) : t :=
  mk (customer o) (restaurant o) (rider o) (status o) (restaurantRating o) (Some r).



End Order.

Module MenuItem.

Record t := mk {
  restaurantId : ObjectId;
  name : string;
  description : string;
  price : float;
  category : string;
  cuisine : string;
  subCategory : option string;
  image : string;
  isVeg : bool;
  isAvailable : bool;
}.

End MenuItem.

Module WishlistItem.

Record t := mk {
  menuItem : ObjectId;
  name : option string;
  price : option float;
  quantity : float;
}.

Definition set_quantity (q : float) (i : t) : t :=
  mk (menuItem i) (name i) (price i) q.

End WishlistItem.

Module Wishlist.

Record t := mk {
  user : ObjectId;
  name : string;
  restaurant : ObjectId;
  items : list WishlistItem.t;
  updatedAt : Date;
}.

End Wishlist.

(** The collections, each keyed by [_id]. *)
Record DB := mkDB {
  users : gmap string User.t;
  orders : gmap string Order.t;
  menuItems : gmap string MenuItem.t;
  wishlists : gmap string Wishlist.t;
}.

Definition set_users (us : gmap string User.t) (db : DB) : DB :=
  mkDB us (orders db) (menuItems db) (wishlists db).
Definition set_orders (os : gmap string Order.t) (db : DB) : DB :=
  mkDB (users db) os (menuItems db) (wishlists db).
Definition set_menuItems (ms : gmap string MenuItem.t) (db : DB) : DB :=
  mkDB (users db) (orders db) ms (wishlists db).
Definition set_wishlists (ws : gmap string Wishlist.t) (db : DB) : DB :=
  mkDB (users db) (orders db) (menuItems db) ws.

(** [User.findById(id)] for an [id] that is an ObjectId: the document
    with its defaults, or [null]. *)
Definition User_findById (id : ObjectId) (db : DB) : option User.t :=
  User.applyDefaults <$> users db !! id.

(** ** Responses *)

(** [res.status(code).json({ success, message, ...payload })]. *)
Record Response (A : Type) := mkResponse {
  code : nat;
  success : bool;
  message : string;
  payload : option A;
}.
Arguments mkResponse {A} _ _ _ _.
Arguments code {A} _.
Arguments success {A} _.
Arguments message {A} _.
Arguments payload {A} _.

(** What a [throw] inside a handler carries to its [catch]. *)
Inductive Exception := TypeError | ValidationError | CastError.

(** A computation that may throw. *)
Definition Exc (A : Type) : Type := Exception + A.

Definition throw {A} (e : Exception) : Exc A := inl e.
Definition ok {A} (a : A) : Exc A := inr a.
Definition bindE {A B} (m : Exc A) (k : A → Exc B) : Exc B :=
  match m with inl e => inl e | inr a => k a end.

#[global] Instance Exc_bind : MBind Exc := λ A B k m, bindE m k.
#[global] Instance Exc_ret : MRet Exc := @ok.

(** Reading a property of [undefined], or calling a method on it, throws. *)
Definition defined {A} (x : option A) : Exc A :=
  match x with Some a => ok a | None => throw TypeError end.

(** ** [PUT /api/restaurant/toggle-kitchen] *)

Module Kitchen.

Inductive Payload :=
  | ActiveOrders (activeOrders : nat)
  | IsKitchenOpen (isKitchenOpen : bool).

(** The [$in] list of the [countDocuments] query. *)
Definition active_statuses : list OrderStatus :=
  [pending; accepted; rider_assigned; preparing; ready; picked_up; on_the_way].

(** [Order.countDocuments({ restaurant: id, status: { $in: [...] } })]. *)
Definition countDocuments (id : ObjectId) (os : gmap string Order.t) : nat :=
  size (filter (λ kv : string * Order.t,
                  Order.restaurant kv.2 = id
                  ∧ Order.status kv.2 ∈ active_statuses) os).

(** The handler behind [protect], which has put the caller's document
    and its [_id] in [req.user].  [user.save()] writes the document that
    was read, defaults included, with the new flag. *)
Definition toggle_kitchen (req_user : ObjectId * User.t) (db : DB)
  : Response Payload * DB :=
  if decide (User.role req_user.2 ≠ Role.restaurant) then
    (mkResponse 403 false
       "Access denied. Only restaurant owners can toggle kitchen status." None,
     db)
  else
    match User_findById req_user.1 db with
    | None => (mkResponse 404 false "User not found" None, db)
    | Some user =>
      let currentStatus :=
        Js.nullish (User.restaurantDetails user ≫= RestaurantDetails.isKitchenOpen)
                   true in
      let toggled :=
        let details := default RestaurantDetails.empty (User.restaurantDetails user) in
        let user' :=
          User.set_restaurantDetails
            (RestaurantDetails.set_isKitchenOpen (negb currentStatus) details) user in
        (mkResponse 200 true
           ("Kitchen " +:+ (if negb currentStatus then "opened" else "closed")
            +:+ " successfully")
           (Some (IsKitchenOpen (negb currentStatus))),
         set_users (<[req_user.1 := user']> (users db)) db) in
      if currentStatus then
        let activeOrders := countDocuments req_user.1 (orders db) in
        if bool_decide (0 < activeOrders) then
          (mkResponse 400 false
             ("Cannot close kitchen. You have " +:+ pretty activeOrders
              +:+ " active order(s). Please complete all orders before closing.")
             (Some (ActiveOrders activeOrders)),
           db)
        else toggled
      else toggled
    end.

End Kitchen.

(** ** [POST /api/rating/order/:orderId] *)

Module RatingRoute.

(** [req.body], with the ratings as JSON numbers. *)
Record Body := mkBody {
  restaurantRating : option float;
  restaurantReview : option string;
  riderRating : option float;
  riderReview : option string;
}.

(** The [min: 0, max: 5] validators of [rating.average], which [save()]
    runs on the new aggregate. *)
Definition average_valid (r : Rating.t) : bool :=
  match Rating.average r with
  | Some a => PrimFloat.leb 0%float a && PrimFloat.leb a 5%float
  | None => true
  end.

(** [populate] of a reference: the referenced user, or [null]. *)
Definition populate (db : DB) (ref : option ObjectId)
  : option (ObjectId * User.t) :=
  id ← ref; u ← users db !! id; Some (id, u).

Section Handler.

(** [models/Order.js] is not among the sources: what its schema accepts
    when [order.save()] validates the document is a parameter. *)
Variable Order_validate : Order.t → bool.

(** The value of [new Date()] during the request. *)
Variable now : Date.

Variable body : Body.

(** [if (restaurantRating) { ... }], on the order populated from the
    store as it was when the order was read.  [restaurant.save()] writes
    the document that was read, defaults included, with the new
    aggregate. *)
Definition rate_restaurant (order_restaurant : option (ObjectId * User.t))
    (order : Order.t) (db : DB) : Exc (Order.t * DB) :=
  match restaurantRating body with
  | Some restaurantRating =>
    if Js.truthy restaurantRating then
      let order :=
        Order.set_restaurantRating
          (RatingEntry.mk restaurantRating
             (Js.str_or (restaurantReview body) "") now) order in
      populated ← defined order_restaurant;
      match User_findById populated.1 db with
      | Some restaurant =>
        details ← defined (User.restaurantDetails restaurant);
        rating ← defined (RestaurantDetails.rating details);
        let currentAvg := Js.or_default (Rating.average rating) 0%float in
        let currentCount := Js.or_default (Rating.count rating) 0%float in
        let newCount := PrimFloat.add currentCount 1%float in
        let newAvg :=
          PrimFloat.div
            (PrimFloat.add (PrimFloat.mul currentAvg currentCount) restaurantRating)
            newCount in
        let rating' :=
          Rating.mk
            (Some (PrimFloat.div (Js.Math_round (PrimFloat.mul newAvg 10%float))
                                 10%float))
            (Some newCount) in
        if average_valid rating' then
          ok (order,
              set_users
                (<[populated.1 :=
                     User.set_restaurantDetails
                       (RestaurantDetails.set_rating rating' details) restaurant]>
                   (users db)) db)
        else throw ValidationError
      | None => ok (order, db)
      end
    else ok (order, db)
  | None => ok (order, db)
  end.

(** [if (riderRating && order.rider) { ... }]. *)
Definition rate_rider (order_rider : option (ObjectId * User.t))
    (order : Order.t) (db : DB) : Exc (Order.t * DB) :=
  match riderRating body, order_rider with
  | Some riderRating, Some populated =>
    if Js.truthy riderRating then
      let order :=
        Order.set_riderRating
          (RatingEntry.mk riderRating (Js.str_or (riderReview body) "") now)
          order in
      match User_findById populated.1 db with
      | Some rider =>
        details ← defined (User.riderDetails rider);
        rating ← defined (RiderDetails.rating details);
        let currentAvg := Js.or_default (Rating.average rating) 2.5%float in
        let currentCount := Js.or_default (Rating.count rating) 0%float in
        let newCount := PrimFloat.add currentCount 1%float in
        let newAvg :=
          PrimFloat.div
            (PrimFloat.add (PrimFloat.mul currentAvg currentCount) riderRating)
            newCount in
        let rating' :=
          Rating.mk
            (Some (PrimFloat.div (Js.Math_round (PrimFloat.mul newAvg 10%float))
                                 10%float))
            (Some newCount) in
        if average_valid rating' then
          ok (order,
              set_users
                (<[populated.1 :=
                     User.set_riderDetails
                       (RiderDetails.set_rating rating' details) rider]>
                   (users db)) db)
        else throw ValidationError
      | None => ok (order, db)
      end
    else ok (order, db)
  | _, _ => ok (order, db)
  end.

Definition error_response : Response Order.t :=
  mkResponse 500 false "Error submitting rating" None.

(** The handler.  Each [save()] is a write of its own: what was saved
    before a later statement throws stays saved. *)
Definition rate_order (orderId : ObjectId) (db : DB)
  : Response Order.t * DB :=
  match orders db !! orderId with
  | None => (mkResponse 404 false "Order not found" None, db)
  | Some order =>
    if decide (Order.status order ≠ delivered) then
      (mkResponse 400 false "Can only rate delivered orders" None, db)
    else
      let order_restaurant := populate db (Some (Order.restaurant order)) in
      let order_rider := populate db (Order.rider order) in
      match rate_restaurant order_restaurant order db with
      | inl _ => (error_response, db)
      | inr (order1, db1) =>
        match rate_rider order_rider order1 db1 with
        | inl _ => (error_response, db1)
        | inr (order2, db2) =>
          if Order_validate order2 then
            (mkResponse 200 true "Ratings submitted successfully" (Some order2),
             set_orders (<[orderId := order2]> (orders db2)) db2)
          else (error_response, db2)
        end
      end
  end.

End Handler.

End RatingRoute.

(** ** [PATCH /api/rider/availability] and [PATCH /api/rider/location] *)

Module RiderRoute.

(** A request as these two routes see it: no middleware runs before the
    handler, so [req.user] is set only if something else has set it, and
    the handlers do not read it. *)
Record Request (B : Type) := mkRequest {
  user : option (ObjectId * User.t);
  body : B;
}.
Arguments mkRequest {B} _ _.
Arguments user {B} _.
Arguments body {B} _.

Record AvailabilityBody := mkAvailabilityBody {
  av_riderId : option IdParam;
  isAvailable : option bool;
}.

Record LocationBody := mkLocationBody {
  loc_riderId : option IdParam;
  latitude : option float;
  longitude : option float;
}.

(** [User.findById(riderId)] followed by
    [if (!rider || rider.role !== 'rider')]: the rider, [None] for the
    answer 404, or the [CastError] of an id that is no ObjectId.  Without
    a [riderId] the query looks for the [_id] [null] and finds nothing. *)
Definition find_rider (riderId : option IdParam) (db : DB)
  : Exc (option (ObjectId * User.t)) :=
  match riderId with
  | None => ok None
  | Some (Malformed _) => throw CastError
  | Some (WellFormed id) =>
    ok (rider ← User_findById id db;
        if decide (User.role rider ≠ Role.rider) then None else Some (id, rider))
  end.

(** [rider.save()] writes the document that was read, defaults included,
    with the new flag. *)
Definition patch_availability (req : Request AvailabilityBody) (db : DB)
  : Response (option bool) * DB :=
  match find_rider (av_riderId (body req)) db with
  | inl _ => (mkResponse 500 false "Error updating availability" None, db)
  | inr None => (mkResponse 404 false "Rider not found" None, db)
  | inr (Some (riderId, rider)) =>
    let details := default RiderDetails.empty (User.riderDetails rider) in
    let rider' :=
      User.set_riderDetails
        (RiderDetails.set_isAvailable (isAvailable (body req)) details) rider in
    (mkResponse 200 true
       ("Rider is now " +:+
        (if default false (isAvailable (body req)) then "available"
         else "unavailable"))
       (Some (isAvailable (body req))),
     set_users (<[riderId := rider']> (users db)) db)
  end.

Definition patch_location (now : Date) (req : Request LocationBody) (db : DB)
  : Response (option float * option float) * DB :=
  match find_rider (loc_riderId (body req)) db with
  | inl _ => (mkResponse 500 false "Error updating location" None, db)
  | inr None => (mkResponse 404 false "Rider not found" None, db)
  | inr (Some (riderId, rider)) =>
    let details := default RiderDetails.empty (User.riderDetails rider) in
    let location :=
      CurrentLocation.mk (latitude (body req)) (longitude (body req)) (Some now) in
    let rider' :=
      User.set_riderDetails
        (RiderDetails.set_currentLocation location details) rider in
    (mkResponse 200 true "Location updated successfully"
       (Some (latitude (body req), longitude (body req))),
     set_users (<[riderId := rider']> (users db)) db)
  end.

End RiderRoute.

(** ** [PUT /api/restaurant/menu/:id] and [DELETE /api/restaurant/menu/:id] *)

Module MenuRoute.

(** [req.body] of a request whose fields are JSON values of the types
    of their schema paths (strings, a number for [price], booleans);
    [None] is [undefined].  On such a body [Number(price)] is [price]. *)
Record Body := mkBody {
  name : option string;
  description : option string;
  price : option float;
  category : option string;
  cuisine : option string;
  subCategory : option string;
  image : option string;
  isVeg : option bool;
  isAvailable : option bool;
}.

(** The white space and the line terminators of ECMA-262 that take more
    than one byte in UTF-8: U+00A0 in two bytes; U+1680, U+2000 to U+200A,
    U+2028, U+2029, U+202F, U+205F, U+3000 and U+FEFF in three. *)
Definition space2 (a b : Ascii.ascii) : bool :=
  (Ascii.N_of_ascii a =? 194)%N && (Ascii.N_of_ascii b =? 160)%N.

Definition space3 (a b c : Ascii.ascii) : bool :=
  let a := Ascii.N_of_ascii a in
  let b := Ascii.N_of_ascii b in
  let c := Ascii.N_of_ascii c in
  ((a =? 225) && (b =? 154) && (c =? 128))%N
  || ((a =? 226) && (b =? 128) && ((128 <=? c) && (c <=? 138)))%N
  || ((a =? 226) && (b =? 128) && ((c =? 168) || (c =? 169) || (c =? 175)))%N
  || ((a =? 226) && (b =? 129) && (c =? 159))%N
  || ((a =? 227) && (b =? 128) && (c =? 128))%N
  || ((a =? 239) && (b =? 187) && (c =? 191))%N.

(** Removes the white space a string starts with; [two] and [three]
    recognise the characters of two and of three bytes. *)
Fixpoint strip (two : Ascii.ascii → Ascii.ascii → bool)
    (three : Ascii.ascii → Ascii.ascii → Ascii.ascii → bool) (s : string)
  : string :=
  match s with
  | String a s1 =>
    if Ascii.is_space a then strip two three s1
    else
      match s1 with
      | String b s2 =>
        if two a b then strip two three s2
        else
          match s2 with
          | String c s3 => if three a b c then strip two three s3 else s
          | EmptyString => s
          end
      | EmptyString => s
      end
  | EmptyString => EmptyString
  end.

Definition trim_start (s : string) : string := strip space2 space3 s.

(** The same from the end: on the reversed bytes, each character read
    backwards. *)
Definition trim_end (s : string) : string :=
  String.rev (strip (λ a b, space2 b a) (λ a b c, space3 c b a) (String.rev s)).

(** The [trim: true] setter: [String.prototype.trim]. *)
Definition trim (s : string) : string := trim_end (trim_start s).

Definition categories : list string :=
  ["Starter"; "Main Course"; "Dessert"; "Beverage"; "Snacks"].

Definition cuisines : list string :=
  ["Indian"; "Chinese"; "Italian"; "Mexican"; "Thai"; "Japanese"; "French";
   "Mediterranean"; "American"; "Korean"; "Middle Eastern"; "Continental"].

Definition subCategories : list string :=
  ["Pizza"; "Burger"; "Pasta"; "Noodles"; "Rice"; "Sandwich"; "Salad"; "Soup";
   "Curry"; "Biryani"; "Kebab"; "Meal"; "Cake"; "Dessert"; "Juice"; "Coffee";
   "Tea"].

(** The validators of the menu-item schema, path by path; [minlength] and
    [maxlength] compare with [s.length]. *)
Definition name_valid (s : string) : bool :=
  bool_decide (s ≠ "" ∧ 2 ≤ Js.length s ∧ Js.length s ≤ 100).
Definition description_valid (s : string) : bool :=
  bool_decide (s ≠ "" ∧ Js.length s ≤ 500).
Definition price_valid (p : float) : bool := PrimFloat.leb 0%float p.
Definition category_valid (s : string) : bool := bool_decide (s ∈ categories).
Definition cuisine_valid (s : string) : bool := bool_decide (s ∈ cuisines).
Definition subCategory_valid (s : option string) : bool :=
  match s with Some v => bool_decide (v ∈ subCategories) | None => true end.
Definition image_valid (s : string) : bool := bool_decide (s ≠ "").

(** [if (f !== undefined) menuItem.f = f], for the nine fields. *)
Definition assign (body : Body) (menuItem : MenuItem.t) : MenuItem.t :=
  MenuItem.mk
    (MenuItem.restaurantId menuItem)
    (from_option trim (MenuItem.name menuItem) (name body))
    (from_option trim (MenuItem.description menuItem) (description body))
    (default (MenuItem.price menuItem) (price body))
    (default (MenuItem.category menuItem) (category body))
    (default (MenuItem.cuisine menuItem) (cuisine body))
    (match subCategory body with
     | Some s => Some s
     | None => MenuItem.subCategory menuItem
     end)
    (default (MenuItem.image menuItem) (image body))
    (default (MenuItem.isVeg menuItem) (isVeg body))
    (default (MenuItem.isAvailable menuItem) (isAvailable body)).

(** The validators of every path of the schema, as [save()] and
    [create] run them: [save()] validates the paths it has loaded as well
    as those that were assigned. *)
Definition schema_valid (menuItem : MenuItem.t) : bool :=
  name_valid (MenuItem.name menuItem)
  && description_valid (MenuItem.description menuItem)
  && price_valid (MenuItem.price menuItem)
  && category_valid (MenuItem.category menuItem)
  && cuisine_valid (MenuItem.cuisine menuItem)
  && subCategory_valid (MenuItem.subCategory menuItem)
  && image_valid (MenuItem.image menuItem).

(** [PUT /menu/:id], behind [protect]. *)
Definition update_menu_item (req_user : ObjectId * User.t) (id : ObjectId)
    (body : Body) (db : DB) : Response MenuItem.t * DB :=
  if decide (User.role req_user.2 ≠ Role.restaurant) then
    (mkResponse 403 false
       "Access denied. Only restaurant owners can update menu items." None, db)
  else
    match menuItems db !! id with
    | None => (mkResponse 404 false "Menu item not found" None, db)
    | Some menuItem =>
      if decide (MenuItem.restaurantId menuItem ≠ req_user.1) then
        (mkResponse 403 false
           "Access denied. You can only update your own menu items." None, db)
      else
        let menuItem' := assign body menuItem in
        if schema_valid menuItem' then
          (mkResponse 200 true "Menu item updated successfully" (Some menuItem'),
           set_menuItems (<[id := menuItem']> (menuItems db)) db)
        else
          (mkResponse 500 false "Failed to update menu item" None, db)
    end.

(** [DELETE /menu/:id], behind [protect]. *)
Definition delete_menu_item (req_user : ObjectId * User.t) (id : ObjectId)
    (db : DB) : Response unit * DB :=
  if decide (User.role req_user.2 ≠ Role.restaurant) then
    (mkResponse 403 false
       "Access denied. Only restaurant owners can delete menu items." None, db)
  else
    match menuItems db !! id with
    | None => (mkResponse 404 false "Menu item not found" None, db)
    | Some menuItem =>
      if decide (MenuItem.restaurantId menuItem ≠ req_user.1) then
        (mkResponse 403 false
           "Access denied. You can only delete your own menu items." None, db)
      else
        (mkResponse 200 true "Menu item deleted successfully" None,
         set_menuItems (delete id (menuItems db)) db)
    end.

End MenuRoute.

(** ** [POST /api/wishlist/:id/items] *)

Module WishlistRoute.

Record Body := mkBody {
  menuItem : option ObjectId;
  name : option string;
  price : option float;
  quantity : option float;
}.

(** [menuItemDoc.restaurant]: the menu-item schema declares the owner
    under [restaurantId] and has no path [restaurant], and a document
    exposes no property outside its schema, so the read gives [undefined]
    for every document. *)
Definition menuItemDoc_restaurant (menuItemDoc : MenuItem.t) : option ObjectId :=
  None.

(** [x.toString()] of a reference. *)
Definition toString (x : option ObjectId) : Exc string := defined x.

(** [Wishlist.findOne({ _id: id, user: userId })]. *)
Definition findOne (id userId : ObjectId) (db : DB) : option Wishlist.t :=
  w ← wishlists db !! id;
  if decide (Wishlist.user w = userId) then Some w else None.

(** [existingItem.quantity += q] on the item [find] returns, the first
    with that [menuItem]; [None] when [find] returns [undefined]. *)
Fixpoint add_to_existing (menuItem : ObjectId) (q : float)
    (items : list WishlistItem.t) : option (list WishlistItem.t) :=
  match items with
  | [] => None
  | item :: rest =>
    if decide (WishlistItem.menuItem item = menuItem) then
      Some (WishlistItem.set_quantity
              (PrimFloat.add (WishlistItem.quantity item) q) item :: rest)
    else (item ::.) <$> add_to_existing menuItem q rest
  end.

(** The [min: 1] validator of [items.quantity]. *)
Definition quantities_valid (items : list WishlistItem.t) : bool :=
  forallb (λ i, PrimFloat.leb 1%float (WishlistItem.quantity i)) items.

(** The [try] block once the wishlist is found: an early response, or the
    wishlist to save. *)
Definition add_to_wishlist (now : Date) (body : Body) (wishlist : Wishlist.t)
    (db : DB) : Exc (Response Wishlist.t + Wishlist.t) :=
  match menuItem body ≫= (λ id, (id,.) <$> menuItems db !! id) with
  | None =>
    ok (inl (mkResponse 400 false "Item must be from the same restaurant" None))
  | Some (menuItem, menuItemDoc) =>
    owner ← toString (menuItemDoc_restaurant menuItemDoc);
    scope ← toString (Some (Wishlist.restaurant wishlist));
    if decide (owner ≠ scope) then
      ok (inl (mkResponse 400 false "Item must be from the same restaurant" None))
    else
      let q := Js.or_default (quantity body) 1%float in
      let items' :=
        match add_to_existing menuItem q (Wishlist.items wishlist) with
        | Some items' => items'
        | None =>
          Wishlist.items wishlist
            ++ [WishlistItem.mk menuItem (name body) (price body) q]
        end in
      let wishlist' :=
        Wishlist.mk (Wishlist.user wishlist) (Wishlist.name wishlist)
          (Wishlist.restaurant wishlist) items' now in
      if quantities_valid items' then ok (inr wishlist')
      else throw ValidationError
  end.

(** The handler, behind [protect]; [userId] is [req.user.id]. *)
Definition add_item (now : Date) (userId id : ObjectId) (body : Body) (db : DB)
  : Response Wishlist.t * DB :=
  match findOne id userId db with
  | None => (mkResponse 404 false "Wishlist not found" None, db)
  | Some wishlist =>
    match add_to_wishlist now body wishlist db with
    | inl _ => (mkResponse 500 false "Failed to add item" None, db)
    | inr (inl rejected) => (rejected, db)
    | inr (inr wishlist') =>
      (mkResponse 200 true "Item added to wishlist" (Some wishlist'),
       set_wishlists (<[id := wishlist']> (wishlists db)) db)
    end
  end.

End WishlistRoute.

(** ** [GET /api/restaurant/all] *)

Module Listing.

(** [req.query]: the parameters are strings when given. *)
Record Query := mkQuery {
  latitude : option string;
  longitude : option string;
  maxDistance : option string;
}.

(** [User.find({ role: 'restaurant' })]. *)
Definition find_restaurants (db : DB) : list (ObjectId * User.t) :=
  filter (λ r : ObjectId * User.t, User.role r.2 = Role.restaurant)
         (map_to_list (users db)).

(** [MenuItem.find({ restaurantId: id, isAvailable: true })]. *)
Definition find_available (restaurantId : ObjectId) (db : DB)
  : list (ObjectId * MenuItem.t) :=
  filter (λ m : ObjectId * MenuItem.t,
            MenuItem.restaurantId m.2 = restaurantId
            ∧ MenuItem.isAvailable m.2 = true)
         (map_to_list (menuItems db)).

(** An element of [restaurantsWithMenu]. *)
Record Entry := mkEntry {
  id : ObjectId;
  name : string;
  avatar : string;
  description : string;
  address : Address.t;
  isKitchenOpen : bool;
  kitchenName : string;
  rating : Rating.t;
  menuItems : list (ObjectId * MenuItem.t);
  menuCount : nat;
}.

(** The callback of [restaurants.map], on a document that [find] has
    handed out with its defaults. *)
Definition with_menu (db : DB) (r : ObjectId * User.t) : Entry :=
  let details := User.restaurantDetails (User.applyDefaults r.2) in
  let menuItems := find_available r.1 db in
  mkEntry r.1
    (Js.str_or (details ≫= RestaurantDetails.kitchenName) (User.name r.2))
    (User.avatar r.2)
    (Js.str_or (details ≫= RestaurantDetails.description) "")
    (default Address.empty (details ≫= RestaurantDetails.address))
    (Js.nullish (details ≫= RestaurantDetails.isKitchenOpen) true)
    (Js.str_or (details ≫= RestaurantDetails.kitchenName) (User.name r.2))
    (default (Rating.mk (Some 0%float) (Some 0%float))
             (details ≫= RestaurantDetails.rating))
    menuItems
    (length menuItems).

Section Handler.

(** The built-ins of the JavaScript run time that the handler calls;
    [Math.sqrt] is the correctly rounded square root of the doubles. *)
Variable parseFloat : string → float.
Variables Math_sin Math_cos : float → float.
Variable Math_atan2 : float → float → float.

(** [x * Math.PI / 180]. *)
Definition radians (x : float) : float :=
  PrimFloat.div (PrimFloat.mul x Js.Math_PI) 180%float.

(** The Haversine formula, operation by operation. *)
Definition calculateDistance (lat1 lon1 lat2 lon2 : float) : float :=
  let R := 6371%float in
  let dLat := radians (PrimFloat.sub lat2 lat1) in
  let dLon := radians (PrimFloat.sub lon2 lon1) in
  let a :=
    PrimFloat.add
      (PrimFloat.mul (Math_sin (PrimFloat.div dLat 2%float))
                     (Math_sin (PrimFloat.div dLat 2%float)))
      (PrimFloat.mul
         (PrimFloat.mul
            (PrimFloat.mul (Math_cos (radians lat1)) (Math_cos (radians lat2)))
            (Math_sin (PrimFloat.div dLon 2%float)))
         (Math_sin (PrimFloat.div dLon 2%float))) in
  let c :=
    PrimFloat.mul 2%float
      (Math_atan2 (PrimFloat.sqrt a) (PrimFloat.sqrt (PrimFloat.sub 1%float a))) in
  PrimFloat.mul R c.

(** The callback of [restaurantsWithMenu.forEach]: whether the restaurant
    is pushed to [filteredResults]. *)
Definition in_range (userLat userLon maxDist : float) (r : Entry) : bool :=
  let restLat := Address.latitude (address r) in
  let restLon := Address.longitude (address r) in
  if negb (Js.truthy_opt restLat) || negb (Js.truthy_opt restLon) then false
  else
    let distance :=
      calculateDistance userLat userLon
        (default 0%float restLat) (default 0%float restLon) in
    PrimFloat.leb distance maxDist.

(** The [data] of the response (its [count] is the length). *)
Definition get_all (query : Query) (db : DB) : list Entry :=
  let restaurantsWithMenu := with_menu db <$> find_restaurants db in
  let restaurantsWithMenu :=
    filter (λ r, 0 < menuCount r) restaurantsWithMenu in
  if Js.truthy_str (latitude query) && Js.truthy_str (longitude query) then
    let userLat := parseFloat (default "" (latitude query)) in
    let userLon := parseFloat (default "" (longitude query)) in
    let maxDist :=
      match maxDistance query with
      | Some s => parseFloat s
      | None => 25%float
      end in
    filter (λ r, in_range userLat userLon maxDist r) restaurantsWithMenu
  else restaurantsWithMenu.

End Handler.

End Listing.

(** ** [userSchema.methods.toJSON] *)

Module UserSchema.

(** The values of a plain object. *)
Inductive JsValue :=
  | JNull
  | JBool (b : bool)
  | JNumber (x : float)
  | JString (s : string)
  | JDate (d : Date)
  | JArray (xs : list JsValue)
  | JObject (fields : list (string * JsValue)).

(** [toJSON], applied to the plain object [this.toObject()] returns: the
    three [delete] statements, in order. *)
Definition toJSON (this_toObject : gmap string JsValue) : gmap string JsValue :=
  let user := this_toObject in
  let user := delete "password" user in
  let user := delete "passwordResetToken" user in
  let user := delete "passwordResetExpires" user in
  user.

End UserSchema.

(** ** The order life cycle of §4.1 *)

Module OrderLifecycle.




(** The account that asks for the transition; [isAvailable] is the
    availability flag of a rider. *)
Record Actor := mkActor {
  actor_id : ObjectId;
  role : Role.t;
  isAvailable : bool;
}.






End OrderLifecycle.

(** ** [GET /api/rating/restaurant/:restaurantId] *)

Module RatingRead.


End RatingRead.

(** ** [POST /api/restaurant/menu] *)

Module MenuCreate.

(** The [data] of the answer: the created document.  Its
    [restaurantLocation] is written with it and read by no handler; the
    collection of the model keeps the other paths. *)
Record Created := mkCreated {
  item : MenuItem.t;
  restaurantLocation : Address.t;
}.

(** [!name || !description || !price || !category || !cuisine || !image],
    negated. *)
Definition required_given (body : MenuRoute.Body) : bool :=
  Js.truthy_str (MenuRoute.name body)
  && Js.truthy_str (MenuRoute.description body)
  && Js.truthy_opt (MenuRoute.price body)
  && Js.truthy_str (MenuRoute.category body)
  && Js.truthy_str (MenuRoute.cuisine body)
  && Js.truthy_str (MenuRoute.image body).

(** The document [MenuItem.create] is given, after the setters. *)
Definition new_item (owner : ObjectId) (body : MenuRoute.Body) : MenuItem.t :=
  MenuItem.mk owner
    (MenuRoute.trim (default "" (MenuRoute.name body)))
    (MenuRoute.trim (default "" (MenuRoute.description body)))
    (default 0%float (MenuRoute.price body))
    (default "" (MenuRoute.category body))
    (default "" (MenuRoute.cuisine body))
    (MenuRoute.subCategory body)
    (default "" (MenuRoute.image body))
    (default true (MenuRoute.isVeg body))
    (default true (MenuRoute.isAvailable body)).

(** The handler, behind [protect]; [new_id] is the [_id] generated for the
    document, and an [_id] that is taken makes the insert fail. *)
Definition create_menu_item (new_id : ObjectId) (req_user : ObjectId * User.t)
    (body : MenuRoute.Body) (db : DB) : Response Created * DB :=
  if decide (User.role req_user.2 ≠ Role.restaurant) then
    (mkResponse 403 false
       "Access denied. Only restaurant owners can create menu items." None, db)
  else if negb (required_given body) then
    (mkResponse 400 false
       "Please provide all required fields: name, description, price, category, cuisine, image"
       None, db)
  else
    let failed := (mkResponse 500 false "Failed to create menu item" None, db) in
    match users db !! req_user.1 with
    | None => failed
    | Some user =>
      let address := User.restaurantDetails user ≫= RestaurantDetails.address in
      let restaurantLocation :=
        Address.mk (address ≫= Address.latitude) (address ≫= Address.longitude) in
      let menuItem := new_item req_user.1 body in
      if MenuRoute.schema_valid menuItem then
        match menuItems db !! new_id with
        | None =>
          (mkResponse 201 true "Menu item created successfully"
             (Some (mkCreated menuItem restaurantLocation)),
           set_menuItems (<[new_id := menuItem]> (menuItems db)) db)
        | Some _ => failed
        end
      else failed
    end.

End MenuCreate.

(** ** [POST /api/wishlist], [GET /api/wishlist/:id],
       [PATCH /api/wishlist/:id/name] and [DELETE /api/wishlist/:id] *)

Module WishlistAdmin.

(** What [populate('items.menuItem', 'name price image category')] puts in
    the place of a reference. *)
Record MenuItemSummary := mkSummary {
  name : string;
  price : float;
  image : string;
  category : string;
}.

(** A wishlist after the two [populate] calls: [restaurant.restaurantDetails]
    and one summary per item, [null] for a reference that resolves to
    nothing. *)
Record Populated := mkPopulated {
  wishlist : Wishlist.t;
  restaurant : option (option RestaurantDetails.t);
  items_menuItem : list (option MenuItemSummary);
}.

Definition summary (m : MenuItem.t) : MenuItemSummary :=
  mkSummary (MenuItem.name m) (MenuItem.price m) (MenuItem.image m)
            (MenuItem.category m).

Definition populate (w : Wishlist.t) (db : DB) : Populated :=
  mkPopulated w
    (User.restaurantDetails <$> User_findById (Wishlist.restaurant w) db)
    ((λ i, summary <$> menuItems db !! WishlistItem.menuItem i)
       <$> Wishlist.items w).

(** [req.body] of the creation. *)
Record Body := mkBody {
  body_name : option string;
  body_restaurant : option ObjectId;
  body_items : option (list WishlistRoute.Body);
}.

(** An element of [items] as the schema casts and validates it:
    [menuItem] is required, [quantity] defaults to 1 and is at least 1. *)
Definition cast_item (i : WishlistRoute.Body) : option WishlistItem.t :=
  menuItem ← WishlistRoute.menuItem i;
  let quantity := default 1%float (WishlistRoute.quantity i) in
  if PrimFloat.leb 1%float quantity then
    Some (WishlistItem.mk menuItem (WishlistRoute.name i) (WishlistRoute.price i)
            quantity)
  else None.

(** [POST /], behind [protect]; [userId] is [req.user.id] and [new_id] the
    [_id] generated for the document.  The [createdAt] that the schema
    sets beside [updatedAt] is read by the sort of [GET /] alone and is
    not kept in the model. *)
Definition create_wishlist (now : Date) (new_id userId : ObjectId)
    (body : Body) (db : DB) : Response Populated * DB :=
  match body_name body, body_restaurant body, body_items body with
  | Some name, Some restaurant, Some (item :: items) =>
    if decide (name = "") then
      (mkResponse 400 false "Name, restaurant ID, and items are required" None, db)
    else if decide (restaurant = "") then
      (mkResponse 400 false "Name, restaurant ID, and items are required" None, db)
    else
      let failed := (mkResponse 500 false "Failed to create wishlist" None, db) in
      match users db !! restaurant with
      | None => (mkResponse 404 false "Restaurant not found" None, db)
      | Some restaurantDoc =>
        if decide (User.role restaurantDoc ≠ Role.restaurant) then
          (mkResponse 404 false "Restaurant not found" None, db)
        else
          match mapM cast_item (item :: items) with
          | None => failed
          | Some items' =>
            let wishlist :=
              Wishlist.mk userId (MenuRoute.trim name) restaurant items' now in
            if decide (Wishlist.name wishlist = "") then failed
            else
              match wishlists db !! new_id with
              | Some _ => failed
              | None =>
                let db' := set_wishlists (<[new_id := wishlist]> (wishlists db)) db in
                (mkResponse 201 true "Wishlist created successfully"
                   (Some (populate wishlist db')), db')
              end
          end
      end
  | _, _, _ =>
    (mkResponse 400 false "Name, restaurant ID, and items are required" None, db)
  end.

(** [GET /:id], behind [protect]. *)
Definition get_wishlist (userId id : ObjectId) (db : DB) : Response Populated :=
  match WishlistRoute.findOne id userId db with
  | None => mkResponse 404 false "Wishlist not found" None
  | Some wishlist => mkResponse 200 true "" (Some (populate wishlist db))
  end.

(** [PATCH /:id/name], behind [protect]: the [trim] setter runs on the
    assignment and [save()] validates the assigned name, which is
    [required]. *)
Definition rename (now : Date) (userId id : ObjectId) (name : option string)
    (db : DB) : Response Wishlist.t * DB :=
  if negb (Js.truthy_str name) then
    (mkResponse 400 false "Name is required" None, db)
  else
    match WishlistRoute.findOne id userId db with
    | None => (mkResponse 404 false "Wishlist not found" None, db)
    | Some wishlist =>
      let wishlist' :=
        Wishlist.mk (Wishlist.user wishlist) (MenuRoute.trim (default "" name))
          (Wishlist.restaurant wishlist) (Wishlist.items wishlist) now in
      if decide (Wishlist.name wishlist' = "") then
        (mkResponse 500 false "Failed to update wishlist name" None, db)
      else
        (mkResponse 200 true "Wishlist name updated" (Some wishlist'),
         set_wishlists (<[id := wishlist']> (wishlists db)) db)
    end.

(** [DELETE /:id], behind [protect]. *)
Definition delete_wishlist (userId id : ObjectId) (db : DB)
  : Response unit * DB :=
  match WishlistRoute.findOne id userId db with
  | None => (mkResponse 404 false "Wishlist not found" None, db)
  | Some _ =>
    (mkResponse 200 true "Wishlist deleted successfully" None,
     set_wishlists (delete id (wishlists db)) db)
  end.

End WishlistAdmin.

(** ** Statements of the specification *)

(** An order the kitchen still has to see through: any status but the two
    terminal ones. *)
Definition pre_delivery (s : OrderStatus) : Prop :=
  s ≠ delivered ∧ s ≠ cancelled.

#[global] Instance pre_delivery_dec s : Decision (pre_delivery s).
Proof. unfold pre_delivery. apply _. Defined.

(** The orders of restaurant [id] that are in such a status. *)
Definition open_orders (id : ObjectId) (os : gmap string Order.t)
  : gmap string Order.t :=
  filter (λ kv : string * Order.t,
            Order.restaurant kv.2 = id ∧ pre_delivery (Order.status kv.2)) os.

(** The aggregate [rating.js] stores for a new rating: the running mean,
    operation by operation in double arithmetic, rounded to one decimal by
    [Math.round(10 x) / 10]. *)
Definition running_mean (oldAvg oldCount newRating : float) : Rating.t :=
  let newCount := PrimFloat.add oldCount 1%float in
  let newAvg :=
    PrimFloat.div (PrimFloat.add (PrimFloat.mul oldAvg oldCount) newRating)
                  newCount in
  Rating.mk
    (Some (PrimFloat.div (Js.Math_round (PrimFloat.mul newAvg 10%float)) 10%float))
    (Some newCount).





(** The aggregate of an account as a handler reads it: the stored one,
    and the defaults of the schema where the document stores none (0 over
    0 ratings for a restaurant, 2.5 over 0 for a rider). *)
Definition restaurant_aggregate (user : User.t) : Rating.t :=
  Rating.applyDefaults 0%float
    (default Rating.empty (User.restaurantDetails user ≫= RestaurantDetails.rating)).

Definition rider_aggregate (user : User.t) : Rating.t :=
  Rating.applyDefaults 2.5%float
    (default Rating.empty (User.riderDetails user ≫= RiderDetails.rating)).


Definition rider_rating (id : ObjectId) (db : DB) : option Rating.t :=
  rider_aggregate <$> users db !! id.

(** The availability flag and the location of the account [id] as a
    handler reads them. *)
Definition rider_isAvailable (id : ObjectId) (db : DB) : option bool :=
  (User_findById id db ≫= User.riderDetails) ≫= RiderDetails.isAvailable.

Definition rider_location (id : ObjectId) (db : DB) : option CurrentLocation.t :=
  (User_findById id db ≫= User.riderDetails) ≫= RiderDetails.currentLocation.

(** The requester owns the menu item: a restaurant account whose [_id] is
    the item's [restaurantId]. *)
Definition owns (req_user : ObjectId * User.t) (menuItem : MenuItem.t) : Prop :=
  User.role req_user.2 = Role.restaurant
  ∧ MenuItem.restaurantId menuItem = req_user.1.

(** The fields [toJSON] must not show. *)
Definition private_fields : list string :=
  ["password"; "passwordResetToken"; "passwordResetExpires"].


(** Modelled from the spec: the state table of §4.1 row by row, as the
    status of the order, the status asked for and the role that may ask.
    Seven rows advance along the fixed sequence; fifteen cancel, from each
    of the five statuses before pickup for each of the three roles. *)
Definition state_table : list (OrderStatus * OrderStatus * Role.t) :=
  [ (pending, accepted, Role.restaurant);
    (accepted, rider_assigned, Role.rider);
    (rider_assigned, preparing, Role.restaurant);
    (preparing, ready, Role.restaurant);
    (ready, picked_up, Role.rider);
    (picked_up, on_the_way, Role.rider);
    (on_the_way, delivered, Role.rider) ]
  ++ (s ← [pending; accepted; rider_assigned; preparing; ready];
      r ← [Role.restaurant; Role.customer; Role.admin];
      [(s, cancelled, r)]).

(** A request is in the table: its row is there, and the rider that is to
    be bound to the order is available. *)
Definition in_table (a : OrderLifecycle.Actor) (s target : OrderStatus) : Prop :=
  (s, target, OrderLifecycle.role a) ∈ state_table
  ∧ (target = rider_assigned → OrderLifecycle.isAvailable a = true).

#[global] Instance in_table_dec a s target : Decision (in_table a s target).
Proof. unfold in_table. apply _. Defined.

(** ** Sample documents *)

Module Sample.

Definition kitchen : User.t :=
  User.mk "Spice Route" Role.restaurant ""
    (Some (RestaurantDetails.mk (Some "Spice Route") None
             (Some (Address.mk (Some 0%float) (Some 0%float)))
             (Some true)
             (Some (Rating.mk (Some 4%float) (Some 3%float)))))
    None.

Definition courier : User.t :=
  User.mk "Asha" Role.rider "" None
    (Some (RiderDetails.mk (Some false) None
             (Some (Rating.mk (Some 0%float) (Some 3%float))))).

(** A restaurant rated 1.4 over three ratings. *)
Definition bistro : User.t :=
  User.mk "Bistro" Role.restaurant ""
    (Some (RestaurantDetails.mk None None None None
             (Some (Rating.mk (Some 1.4%float) (Some 3%float)))))
    None.

Definition diner : User.t := User.mk "Dev" Role.customer "" None None.

Definition order_in (s : OrderStatus) : Order.t :=
  Order.mk "u-diner" "u-kitchen" (Some "u-courier") s None None.

Definition people : gmap string User.t :=
  <["u-kitchen" := kitchen]> (<["u-courier" := courier]> (<["u-diner" := diner]> ∅)).

(** Two orders in [preparing], one delivered. *)
Definition busy : DB :=
  mkDB people
    (<["o1" := order_in preparing]>
       (<["o2" := order_in preparing]> (<["o3" := order_in delivered]> ∅)))
    ∅ ∅.


(** Two delivered orders to rate: [o3] of the kitchen, carried by the
    courier, and [o5] of the bistro, without a rider. *)
Definition rated : DB :=
  mkDB (<["u-bistro" := bistro]> people)
    (<["o3" := order_in delivered]>
       (<["o5" := Order.mk "u-diner" "u-bistro" None delivered None None]> ∅))
    ∅ ∅.

Definition clock : Date := 1700000000000%N.

Definition dish (owner : ObjectId) (name : string) (available : bool)
  : MenuItem.t :=
  MenuItem.mk owner name "House special" 180%float "Main Course" "Indian" None
    "dish.png" true available.

Definition shortlist : Wishlist.t :=
  Wishlist.mk "u-diner" "Friday" "u-kitchen" [] 1600000000000%N.

(** The kitchen, at latitude 0 and longitude 0, sells one dish and has
    another one off the menu; the bistro has nothing available; the diner
    keeps a wishlist for the kitchen. *)
Definition catalog : DB :=
  mkDB (<["u-bistro" := bistro]> people) ∅
    (<["m1" := dish "u-kitchen" "Thali" true]>
       (<["m2" := dish "u-kitchen" "Kulfi" false]>
          (<["m3" := dish "u-bistro" "Soup" false]> ∅)))
    (<["w1" := shortlist]> ∅).

(** A local account in the middle of a password reset, as a plain object,
    and the same account with another hash and no reset pending. *)
Definition account : gmap string UserSchema.JsValue :=
  <["name" := UserSchema.JString "Dev"]>
    (<["email" := UserSchema.JString "dev@example.org"]>
    (<["password" := UserSchema.JString "$2a$10$abcdefghijklmnopqrstuv"]>
    (<["passwordResetToken" := UserSchema.JString "f00d"]>
    (<["passwordResetExpires" := UserSchema.JDate 1700000600000%N]> ∅)))).

Definition account_reset : gmap string UserSchema.JsValue :=
  <["name" := UserSchema.JString "Dev"]>
    (<["email" := UserSchema.JString "dev@example.org"]>
    (<["password" := UserSchema.JString "$2a$10$zyxwvutsrqponmlkjihgfe"]> ∅)).

End Sample.

(** ** Further statements and documents *)


(** Two versions of a user document that differ at most in the kitchen
    flag. *)
Definition same_but_flag (user user' : User.t) : Prop :=
  User.name user' = User.name user
  ∧ User.role user' = User.role user
  ∧ User.avatar user' = User.avatar user
  ∧ User.riderDetails user' = User.riderDetails user
  ∧ User.restaurantDetails user' ≫= RestaurantDetails.rating
    = User.restaurantDetails user ≫= RestaurantDetails.rating
  ∧ User.restaurantDetails user' ≫= RestaurantDetails.address
    = User.restaurantDetails user ≫= RestaurantDetails.address
  ∧ User.restaurantDetails user' ≫= RestaurantDetails.kitchenName
    = User.restaurantDetails user ≫= RestaurantDetails.kitchenName
  ∧ User.restaurantDetails user' ≫= RestaurantDetails.description
    = User.restaurantDetails user ≫= RestaurantDetails.description.

(** The document that [save()] writes for a new aggregate: the stored
    one with its defaults, and the aggregate in the place of the old
    one. *)
Definition restaurant_rated (rating : Rating.t) (stored : User.t) : User.t :=
  User.set_restaurantDetails
    (RestaurantDetails.set_rating rating
       (RestaurantDetails.applyDefaults
          (default RestaurantDetails.empty (User.restaurantDetails stored))))
    (User.applyDefaults stored).

Definition rider_rated (rating : Rating.t) (stored : User.t) : User.t :=
  User.set_riderDetails
    (RiderDetails.set_rating rating
       (RiderDetails.applyDefaults
          (default RiderDetails.empty (User.riderDetails stored))))
    (User.applyDefaults stored).

(** The stored document of the rider that a [riderId] names, when it names
    one: a well-formed id of an account with the role rider. *)
Definition named_rider (riderId : option IdParam) (db : DB)
  : option (ObjectId * User.t) :=
  match riderId with
  | Some (WellFormed id) =>
    stored ← users db !! id;
    if decide (User.role stored = Role.rider) then Some (id, stored) else None
  | _ => None
  end.

(** The documents that [save()] writes for a new availability flag and
    for a new location: the stored one with its defaults, and the value
    in its place. *)
Definition available_as (b : option bool) (stored : User.t) : User.t :=
  User.set_riderDetails
    (RiderDetails.set_isAvailable b
       (RiderDetails.applyDefaults
          (default RiderDetails.empty (User.riderDetails stored))))
    (User.applyDefaults stored).

Definition located_at (l : CurrentLocation.t) (stored : User.t) : User.t :=
  User.set_riderDetails
    (RiderDetails.set_currentLocation l
       (RiderDetails.applyDefaults
          (default RiderDetails.empty (User.riderDetails stored))))
    (User.applyDefaults stored).

(** Every stored menu item passes the validators of its schema. *)
Definition menu_valid (db : DB) : Prop :=
  ∀ k m, menuItems db !! k = Some m → MenuRoute.schema_valid m = true.

(** Every stored wishlist has a name, is scoped to a user with the role
    restaurant, and holds quantities of at least 1. *)
Definition wishlists_wellformed (db : DB) : Prop :=
  ∀ id w, wishlists db !! id = Some w →
    Wishlist.name w ≠ ""
    ∧ User.role <$> users db !! Wishlist.restaurant w = Some Role.restaurant
    ∧ WishlistRoute.quantities_valid (Wishlist.items w) = true.

(** A request body that assigns nothing. *)
Definition empty_body : MenuRoute.Body :=
  MenuRoute.mkBody None None None None None None None None None.

Module Fixture.



Definition new_dish : MenuRoute.Body :=
  MenuRoute.mkBody (Some "  Dal  ") (Some "Lentils") (Some 90%float)
    (Some "Main Course") (Some "Indian") None (Some "dal.png") None None.

Definition free_dish : MenuRoute.Body :=
  MenuRoute.mkBody (Some "Water") (Some "Tap") (Some 0%float)
    (Some "Beverage") (Some "Indian") None (Some "water.png") None None.

(** An update to a name of one character, which takes two bytes. *)
Definition one_letter : MenuRoute.Body :=
  MenuRoute.mkBody (Some "é") None None None None None None None None.

(** A dish of the kitchen stored with a price below 0, and the store that
    holds it. *)
Definition below_zero : MenuItem.t :=
  MenuItem.mk "u-kitchen" "Lassi" "Sweet" (-5)%float "Beverage" "Indian" None
    "lassi.png" true true.

Definition mispriced : DB :=
  mkDB Sample.people ∅ (<["m4" := below_zero]> ∅) ∅.

(** A wishlist for the kitchen that names a dish of the bistro and a dish
    that does not exist. *)
Definition mixed_wishlist : WishlistAdmin.Body :=
  WishlistAdmin.mkBody (Some "Mixed") (Some "u-kitchen")
    (Some [WishlistRoute.mkBody (Some "m3") (Some "Soup") (Some 50%float) None;
           WishlistRoute.mkBody (Some "m9") None None (Some 2%float)]).

(** A restaurant with coordinates away from zero and one dish on sale. *)
Definition cafe : User.t :=
  User.mk "Cafe" Role.restaurant ""
    (Some (RestaurantDetails.mk None None
             (Some (Address.mk (Some 12.9%float) (Some 77.6%float)))
             (Some false) None))
    None.

Definition town : DB :=
  mkDB (<["u-cafe" := cafe]> Sample.people) ∅
    (<["m5" := Sample.dish "u-cafe" "Filter coffee" true]> ∅) ∅.






End Fixture.

(** ** Documents and their defaults *)

(** The shapes of a stored document: each path with a default present or
    absent. *)
Ltac user_shapes user :=
  destruct user
    as [?n ?r ?a [[?kn ?ds ?ad [?b|] [[[?av|] [?ct|]]|]]|]
                 [[[?ia|] ?cl [[[?av|] [?ct|]]|]]|]].

(** Applying the defaults twice is applying them once. *)
Lemma applyDefaults_idemp (user : User.t) :
  User.applyDefaults (User.applyDefaults user) = User.applyDefaults user.
Proof. by user_shapes user. Qed.

Lemma User_findById_Some (id : ObjectId) (db : DB) (user : User.t) :
  User_findById id db = Some user
  ↔ ∃ stored, users db !! id = Some stored ∧ user = User.applyDefaults stored.
Proof.
  unfold User_findById. destruct (users db !! id) as [stored|]; simpl.
  - split; [intros [= <-]; eauto | by intros (? & [= <-] & ->)].
  - split; [done | by intros (? & ? & _)].
Qed.

Lemma User_findById_None (id : ObjectId) (db : DB) :
  User_findById id db = None ↔ users db !! id = None.
Proof. unfold User_findById. by destruct (users db !! id). Qed.

(** What was saved is read back as it was saved: the saved document has
    its defaults. *)
Lemma User_findById_saved (id : ObjectId) (db : DB) (user : User.t) :
  User.applyDefaults user = user →
  User_findById id (set_users (<[id := user]> (users db)) db) = Some user.
Proof.
  intros Hfull. unfold User_findById. simpl. rewrite lookup_insert_eq. simpl.
  by rewrite Hfull.
Qed.

Lemma User_findById_other (id id' : ObjectId) (db : DB) (user : User.t) :
  id ≠ id' →
  User_findById id' (set_users (<[id := user]> (users db)) db)
  = User_findById id' db.
Proof. intros Hne. unfold User_findById. simpl. by rewrite lookup_insert_ne. Qed.

(** Setting a field of a document that has its defaults to a value that
    is given leaves it with its defaults. *)
Lemma set_isKitchenOpen_full (b : bool) (user : User.t) :
  let user' :=
    User.set_restaurantDetails
      (RestaurantDetails.set_isKitchenOpen b
         (default RestaurantDetails.empty
            (User.restaurantDetails (User.applyDefaults user))))
      (User.applyDefaults user) in
  User.applyDefaults user' = user'.
Proof. by user_shapes user. Qed.

Lemma restaurant_aggregate_applyDefaults (user : User.t) :
  (User.restaurantDetails (User.applyDefaults user)) ≫= RestaurantDetails.rating
  = Some (restaurant_aggregate user).
Proof. by user_shapes user. Qed.

Lemma rider_aggregate_applyDefaults (user : User.t) :
  (User.riderDetails (User.applyDefaults user)) ≫= RiderDetails.rating
  = Some (rider_aggregate user).
Proof. by user_shapes user. Qed.



(** The kitchen flag of a document with its defaults is the stored flag,
    and open where none is stored. *)
Lemma isKitchenOpen_applyDefaults (user : User.t) :
  (User.restaurantDetails (User.applyDefaults user))
    ≫= RestaurantDetails.isKitchenOpen
  = Some (Js.nullish
            (User.restaurantDetails user ≫= RestaurantDetails.isKitchenOpen) true).
Proof. by user_shapes user. Qed.

(** ** The order life cycle *)








(** ** The kitchen-close guard *)

Lemma active_statuses_pre_delivery (s : OrderStatus) :
  s ∈ Kitchen.active_statuses ↔ pre_delivery s.
Proof.
  rewrite <- (bool_decide_spec (s ∈ _)), <- (bool_decide_spec (pre_delivery s)).
  destruct s; vm_compute; tauto.
Qed.

Lemma countDocuments_open_orders (id : ObjectId) (os : gmap string Order.t) :
  Kitchen.countDocuments id os = size (open_orders id os).
Proof.
  unfold Kitchen.countDocuments, open_orders. f_equal.
  apply map_filter_ext. intros k o _. simpl.
  by rewrite active_statuses_pre_delivery.
Qed.

(** What the handler does for a restaurant that is stored, in terms of
    the flag its document counts as having. *)
Lemma toggle_kitchen_run (req_user : ObjectId * User.t) (user : User.t) (db : DB) :
  User.role req_user.2 = Role.restaurant →
  users db !! req_user.1 = Some user →
  let currentStatus :=
    Js.nullish (User.restaurantDetails user ≫= RestaurantDetails.isKitchenOpen)
               true in
  let activeOrders := size (open_orders req_user.1 (orders db)) in
  Kitchen.toggle_kitchen req_user db
  = if currentStatus && bool_decide (0 < activeOrders) then
      (mkResponse 400 false
         ("Cannot close kitchen. You have " +:+ pretty activeOrders
          +:+ " active order(s). Please complete all orders before closing.")
         (Some (Kitchen.ActiveOrders activeOrders)), db)
    else
      (mkResponse 200 true
         ("Kitchen " +:+ (if negb currentStatus then "opened" else "closed")
          +:+ " successfully")
         (Some (Kitchen.IsKitchenOpen (negb currentStatus))),
       set_users
         (<[req_user.1 :=
              User.set_restaurantDetails
                (RestaurantDetails.set_isKitchenOpen (negb currentStatus)
                   (default RestaurantDetails.empty
                      (User.restaurantDetails (User.applyDefaults user))))
                (User.applyDefaults user)]> (users db)) db).
Proof.
  intros Hrole Huser. unfold Kitchen.toggle_kitchen, User_findById.
  rewrite decide_False by (intros H; by apply H).
  rewrite Huser. cbn [fmap option_fmap option_map].
  rewrite isKitchenOpen_applyDefaults, countDocuments_open_orders.
  simpl.
  destruct (Js.nullish _ true); [| done].
  by destruct (bool_decide _).
Qed.



(** ** Rating submission *)

Lemma restaurant_rated_facts (rating : Rating.t) (stored : User.t) :
  User.role (restaurant_rated rating stored) = User.role stored
  ∧ User.name (restaurant_rated rating stored) = User.name stored
  ∧ rider_aggregate (restaurant_rated rating stored) = rider_aggregate stored
  ∧ restaurant_aggregate (restaurant_rated rating stored)
    = Rating.applyDefaults 0%float rating.
Proof. by user_shapes stored. Qed.

Lemma rider_rated_facts (rating : Rating.t) (stored : User.t) :
  User.role (rider_rated rating stored) = User.role stored
  ∧ User.name (rider_rated rating stored) = User.name stored
  ∧ restaurant_aggregate (rider_rated rating stored) = restaurant_aggregate stored
  ∧ rider_aggregate (rider_rated rating stored)
    = Rating.applyDefaults 2.5%float rating.
Proof. by user_shapes stored. Qed.

(** A write of one user document that keeps the role. *)
Lemma user_written (db : DB) (id : ObjectId) (stored user' : User.t) :
  users db !! id = Some stored → User.role user' = User.role stored →
  let db' := set_users (<[id := user']> (users db)) db in
  orders db' = orders db ∧ menuItems db' = menuItems db
  ∧ wishlists db' = wishlists db
  ∧ (∀ k, User.role <$> users db' !! k = User.role <$> users db !! k)
  ∧ (∀ k, k ≠ id → users db' !! k = users db !! k).
Proof.
  intros Hstored Hrole. simpl. repeat split.
  - intros k. destruct (decide (id = k)) as [<-|Hne].
    + rewrite lookup_insert_eq, Hstored. simpl. congruence.
    + by rewrite lookup_insert_ne.
  - intros k Hk. by rewrite lookup_insert_ne.
Qed.

Section RatingFacts.

Variable Order_validate : Order.t → bool.
Variable now : Date.
Variable body : RatingRoute.Body.

(** What the restaurant's step does with a rating for a stored account:
    the new aggregate is the running mean over the aggregate that is
    read, and [save()] checks the bounds of the average. *)
Lemma rate_restaurant_run rid ru stored order db r :
  RatingRoute.restaurantRating body = Some r → Js.truthy r = true →
  users db !! rid = Some stored →
  let rating' :=
    running_mean
      (Js.or_default (Rating.average (restaurant_aggregate stored)) 0%float)
      (Js.or_default (Rating.count (restaurant_aggregate stored)) 0%float) r in
  RatingRoute.rate_restaurant now body (Some (rid, ru)) order db
  = if RatingRoute.average_valid rating' then
      inr (Order.set_restaurantRating
             (RatingEntry.mk r (Js.str_or (RatingRoute.restaurantReview body) "")
                now) order,
           set_users (<[rid := restaurant_rated rating' stored]> (users db)) db)
    else inl ValidationError.
Proof.
  intros Hr Ht Hs. unfold RatingRoute.rate_restaurant, User_findById.
  rewrite Hr, Ht. cbn [defined mbind Exc_bind bindE ok fst].
  rewrite Hs. by destruct stored as [n ro a [d|] rd].
Qed.

Lemma rate_rider_run rid ru stored order db r :
  RatingRoute.riderRating body = Some r → Js.truthy r = true →
  users db !! rid = Some stored →
  let rating' :=
    running_mean
      (Js.or_default (Rating.average (rider_aggregate stored)) 2.5%float)
      (Js.or_default (Rating.count (rider_aggregate stored)) 0%float) r in
  RatingRoute.rate_rider now body (Some (rid, ru)) order db
  = if RatingRoute.average_valid rating' then
      inr (Order.set_riderRating
             (RatingEntry.mk r (Js.str_or (RatingRoute.riderReview body) "") now)
             order,
           set_users (<[rid := rider_rated rating' stored]> (users db)) db)
    else inl ValidationError.
Proof.
  intros Hr Ht Hs. unfold RatingRoute.rate_rider, User_findById.
  rewrite Hr, Ht. cbn [fst]. rewrite Hs. by destruct stored as [n ro a rd [d|]].
Qed.

(** The restaurant's step keeps the order's status, rider and restaurant,
    and either writes nothing or writes the restaurant of the order with
    its new aggregate. *)
Lemma rate_restaurant_inv pop order db order1 db1 :
  RatingRoute.rate_restaurant now body pop order db = inr (order1, db1) →
  Order.status order1 = Order.status order
  ∧ Order.rider order1 = Order.rider order
  ∧ Order.restaurant order1 = Order.restaurant order
  ∧ Order.riderRating order1 = Order.riderRating order
  ∧ (db1 = db
     ∨ ∃ rid ru stored r,
         pop = Some (rid, ru) ∧ users db !! rid = Some stored
         ∧ RatingRoute.restaurantRating body = Some r ∧ Js.truthy r = true
         ∧ let rating' :=
             running_mean
               (Js.or_default (Rating.average (restaurant_aggregate stored))
                              0%float)
               (Js.or_default (Rating.count (restaurant_aggregate stored))
                              0%float) r in
           RatingRoute.average_valid rating' = true
           ∧ db1 = set_users (<[rid := restaurant_rated rating' stored]> (users db))
                     db).
Proof.
  intros H.
  destruct (RatingRoute.restaurantRating body) as [r|] eqn:Hr.
  2: { unfold RatingRoute.rate_restaurant, ok in H. rewrite Hr in H.
       simplify_eq. auto 6. }
  destruct (Js.truthy r) eqn:Ht.
  2: { unfold RatingRoute.rate_restaurant, ok in H. rewrite Hr, Ht in H.
       simplify_eq. auto 6. }
  destruct pop as [[rid ru]|].
  2: { unfold RatingRoute.rate_restaurant in H. by rewrite Hr, Ht in H. }
  destruct (users db !! rid) as [stored|] eqn:Hstored.
  2: { unfold RatingRoute.rate_restaurant, User_findById, ok in H.
       rewrite Hr, Ht in H. cbn [defined mbind Exc_bind bindE ok fst] in H.
       rewrite Hstored in H. simpl in H. simplify_eq. auto 6. }
  rewrite (rate_restaurant_run rid ru stored order db r Hr Ht Hstored) in H.
  cbv zeta in H. destruct (RatingRoute.average_valid _) eqn:Hv; [| done].
  simplify_eq. repeat split; try done.
  right. exists rid, ru, stored, r. by repeat split.
Qed.

(** The same for the rider's step. *)
Lemma rate_rider_inv pop order db order2 db2 :
  RatingRoute.rate_rider now body pop order db = inr (order2, db2) →
  Order.status order2 = Order.status order
  ∧ Order.rider order2 = Order.rider order
  ∧ Order.restaurant order2 = Order.restaurant order
  ∧ (pop = None → order2 = order)
  ∧ (db2 = db
     ∨ ∃ rid ru stored r,
         pop = Some (rid, ru) ∧ users db !! rid = Some stored
         ∧ RatingRoute.riderRating body = Some r ∧ Js.truthy r = true
         ∧ let rating' :=
             running_mean
               (Js.or_default (Rating.average (rider_aggregate stored))
                              2.5%float)
               (Js.or_default (Rating.count (rider_aggregate stored))
                              0%float) r in
           RatingRoute.average_valid rating' = true
           ∧ db2 = set_users (<[rid := rider_rated rating' stored]> (users db)) db).
Proof.
  intros H.
  destruct (RatingRoute.riderRating body) as [r|] eqn:Hr.
  2: { unfold RatingRoute.rate_rider, ok in H. rewrite Hr in H.
       simplify_eq. auto 6. }
  destruct pop as [[rid ru]|].
  2: { unfold RatingRoute.rate_rider, ok in H. rewrite Hr in H.
       simplify_eq. auto 6. }
  destruct (Js.truthy r) eqn:Ht.
  2: { unfold RatingRoute.rate_rider, ok in H. rewrite Hr, Ht in H.
       simplify_eq. auto 6. }
  destruct (users db !! rid) as [stored|] eqn:Hstored.
  2: { unfold RatingRoute.rate_rider, User_findById, ok in H.
       rewrite Hr, Ht in H. cbn [fst] in H.
       rewrite Hstored in H. simpl in H. simplify_eq.
       repeat split; auto; done. }
  rewrite (rate_rider_run rid ru stored order db r Hr Ht Hstored) in H.
  cbv zeta in H. destruct (RatingRoute.average_valid _) eqn:Hv; [| done].
  simplify_eq. repeat split; try done.
  right. exists rid, ru, stored, r. by repeat split.
Qed.

(** Neither step writes an order, a menu item or a wishlist, changes a
    role, or touches a user other than the populated one. *)
Lemma rate_restaurant_frame pop order db order1 db1 :
  RatingRoute.rate_restaurant now body pop order db = inr (order1, db1) →
  orders db1 = orders db ∧ menuItems db1 = menuItems db
  ∧ wishlists db1 = wishlists db
  ∧ (∀ id, User.role <$> users db1 !! id = User.role <$> users db !! id)
  ∧ (∀ id, (∀ p, pop = Some p → p.1 ≠ id) → users db1 !! id = users db !! id).
Proof.
  intros (_ & _ & _ & _ & [-> | (rid & ru & stored & r & -> & Hs & _ & _ & Hrun)])
    %rate_restaurant_inv; [done |].
  cbv zeta in Hrun. destruct Hrun as [_ ->].
  destruct (user_written db rid stored (restaurant_rated
    (running_mean
       (Js.or_default (Rating.average (restaurant_aggregate stored)) 0%float)
       (Js.or_default (Rating.count (restaurant_aggregate stored)) 0%float) r)
    stored) Hs) as (? & ? & ? & ? & Hother).
  { apply restaurant_rated_facts. }
  repeat split; try done.
  intros id Hid. apply Hother. intros ->. by apply (Hid (rid, ru)).
Qed.

Lemma rate_rider_frame pop order db order2 db2 :
  RatingRoute.rate_rider now body pop order db = inr (order2, db2) →
  orders db2 = orders db ∧ menuItems db2 = menuItems db
  ∧ wishlists db2 = wishlists db
  ∧ (∀ id, User.role <$> users db2 !! id = User.role <$> users db !! id)
  ∧ (∀ id, (∀ p, pop = Some p → p.1 ≠ id) → users db2 !! id = users db !! id).
Proof.
  intros (_ & _ & _ & _ & [-> | (rid & ru & stored & r & -> & Hs & _ & _ & Hrun)])
    %rate_rider_inv; [done |].
  cbv zeta in Hrun. destruct Hrun as [_ ->].
  destruct (user_written db rid stored (rider_rated
    (running_mean
       (Js.or_default (Rating.average (rider_aggregate stored)) 2.5%float)
       (Js.or_default (Rating.count (rider_aggregate stored)) 0%float) r)
    stored) Hs) as (? & ? & ? & ? & Hother).
  { apply rider_rated_facts. }
  repeat split; try done.
  intros id Hid. apply Hother. intros ->. by apply (Hid (rid, ru)).
Qed.

(** C4.  A rating submitted for an order that is not delivered is answered
    with 400 and writes nothing; and whatever the submission, an order
    document the handler has written is a delivered one. *)
Theorem rating_only_when_delivered (orderId : ObjectId) (db : DB) :
  (∀ order, orders db !! orderId = Some order →
     Order.status order ≠ delivered →
     RatingRoute.rate_order Order_validate now body orderId db
     = (mkResponse 400 false "Can only rate delivered orders" None, db))
  ∧ (∀ id order',
       orders (RatingRoute.rate_order Order_validate now body orderId db).2 !! id
       = Some order' →
       orders db !! id ≠ Some order' →
       Order.status order' = delivered).
Proof.
  split.
  - intros order Ho Hs. unfold RatingRoute.rate_order.
    rewrite Ho. by rewrite decide_True.
  - intros id order'. unfold RatingRoute.rate_order.
    destruct (orders db !! orderId) as [order|] eqn:Ho; [| done].
    destruct (decide (Order.status order ≠ delivered)) as [|Hs]; [done |].
    apply dec_stable in Hs.
    destruct (RatingRoute.rate_restaurant _ _ _ _ _) as [|[order1 db1]] eqn:H1;
      [done |].
    pose proof (rate_restaurant_frame _ _ _ _ _ H1) as (Ho1 & _).
    apply rate_restaurant_inv in H1 as (Hs1 & _).
    destruct (RatingRoute.rate_rider _ _ _ _ _) as [|[order2 db2]] eqn:H2;
      simpl; [by rewrite Ho1 |].
    pose proof (rate_rider_frame _ _ _ _ _ H2) as (Ho2 & _).
    apply rate_rider_inv in H2 as (Hs2 & _).
    destruct (Order_validate order2); simpl; [| by rewrite Ho2, Ho1].
    rewrite Ho2, Ho1. destruct (decide (orderId = id)) as [->|Hne].
    + rewrite lookup_insert_eq. intros ? _. simplify_eq. congruence.
    + rewrite lookup_insert_ne by done. done.
Qed.

End RatingFacts.

Lemma rating_only_when_delivered_witness :
  RatingRoute.rate_order (λ _, true) Sample.clock
    (RatingRoute.mkBody (Some 5%float) (Some "great") (Some 4%float) None)
    "o1" Sample.busy
  = (mkResponse 400 false "Can only rate delivered orders" None, Sample.busy).
Proof.
  apply (proj1 (rating_only_when_delivered (λ _, true) Sample.clock
                  (RatingRoute.mkBody (Some 5%float) (Some "great") (Some 4%float) None)
                  "o1" Sample.busy)
               (Sample.order_in preparing));
    [reflexivity | discriminate].
Defined.

(** ** The rating aggregates *)

(** A running mean has both its paths, so the defaults add nothing. *)
Lemma running_mean_full (average0 oldAvg oldCount r : float) :
  Rating.applyDefaults average0 (running_mean oldAvg oldCount r)
  = running_mean oldAvg oldCount r.
Proof. reflexivity. Qed.





Section RatingAggregates.

Variable Order_validate : Order.t → bool.
Variable now : Date.
Variable body : RatingRoute.Body.







End RatingAggregates.



(** ** The public listing *)

Section ListingFacts.

Variable parseFloat : string → float.
Variables Math_sin Math_cos : float → float.
Variable Math_atan2 : float → float → float.

Local Abbreviation get_all :=
  (Listing.get_all parseFloat Math_sin Math_cos Math_atan2).

(** A restaurant whose stored latitude or longitude is [0] is never pushed
    to [filteredResults], whatever the distance. *)
Lemma in_range_zero userLat userLon maxDist (r : Listing.Entry) :
  Address.latitude (Listing.address r) = Some 0%float
  ∨ Address.longitude (Listing.address r) = Some 0%float →
  Listing.in_range Math_sin Math_cos Math_atan2 userLat userLon maxDist r = false.
Proof.
  unfold Listing.in_range. intros [-> | ->]; simpl; [done |].
  by rewrite orb_true_r.
Qed.

(** With both coordinates stored and non-zero, the restaurant is pushed
    exactly when the Haversine distance is at most [maxDist]. *)
Lemma in_range_nonzero userLat userLon maxDist (r : Listing.Entry) lat lon :
  Address.latitude (Listing.address r) = Some lat →
  Address.longitude (Listing.address r) = Some lon →
  Js.truthy lat = true → Js.truthy lon = true →
  Listing.in_range Math_sin Math_cos Math_atan2 userLat userLon maxDist r
  = PrimFloat.leb
      (Listing.calculateDistance Math_sin Math_cos Math_atan2
         userLat userLon lat lon)
      maxDist.
Proof.
  unfold Listing.in_range. intros -> -> Hlat Hlon. simpl.
  by rewrite Hlat, Hlon.
Qed.

(** C5 at its failing input.  The kitchen, stored at latitude 0 and
    longitude 0 and listed when no position is given, is left out of the
    answer to a query from (0, 0.001) with [maxDistance] 25, and of every
    other query with a position: the list is empty. *)
Theorem listing_skips_zero_coordinates :
  Listing.id <$> get_all (Listing.mkQuery None None None) Sample.catalog
  = ["u-kitchen"]
  ∧ get_all (Listing.mkQuery (Some "0") (Some "0.001") (Some "25")) Sample.catalog
    = []
  ∧ get_all (Listing.mkQuery (Some "0") (Some "0.001") (Some "0.05")) Sample.catalog
    = [].
Proof. repeat split; vm_compute; reflexivity. Qed.

Lemma find_restaurants_elem (db : DB) (r : ObjectId * User.t) :
  r ∈ Listing.find_restaurants db ↔
  User.role r.2 = Role.restaurant ∧ users db !! r.1 = Some r.2.
Proof.
  unfold Listing.find_restaurants. rewrite list_elem_of_filter.
  destruct r as [k u]. by rewrite elem_of_map_to_list.
Qed.

Lemma find_available_elem (db : DB) (rid k : ObjectId) (m : MenuItem.t) :
  (k, m) ∈ Listing.find_available rid db ↔
  menuItems db !! k = Some m
  ∧ MenuItem.restaurantId m = rid ∧ MenuItem.isAvailable m = true.
Proof.
  unfold Listing.find_available. rewrite list_elem_of_filter.
  rewrite elem_of_map_to_list. simpl. tauto.
Qed.

(** Every element of the answer is the entry of a restaurant account, with
    a positive [menuCount]. *)
Lemma get_all_elem (query : Listing.Query) (db : DB) (e : Listing.Entry) :
  e ∈ get_all query db →
  ∃ r, r ∈ Listing.find_restaurants db
       ∧ e = Listing.with_menu db r ∧ 0 < Listing.menuCount e.
Proof.
  unfold Listing.get_all. intros H.
  destruct (Js.truthy_str _ && Js.truthy_str _);
    [apply list_elem_of_filter in H as [_ H] |];
    apply list_elem_of_filter in H as [Hcount H];
    apply list_elem_of_fmap in H as (r & -> & Hr); eauto.
Qed.

(** C9.  An entry of the answer belongs to a restaurant account, its
    [menuItems] are not empty, are counted by [menuCount] and are, each
    once, the restaurant's menu items whose [isAvailable] is true; a
    restaurant none of whose items is available has no entry, whatever the
    query. *)
Theorem listing_available_menu (query : Listing.Query) (db : DB) :
  (∀ e, e ∈ get_all query db →
     (∃ u, users db !! Listing.id e = Some u ∧ User.role u = Role.restaurant)
     ∧ Listing.menuItems e ≠ []
     ∧ Listing.menuCount e = length (Listing.menuItems e)
     ∧ NoDup (Listing.menuItems e)
     ∧ ∀ k m, (k, m) ∈ Listing.menuItems e ↔
         menuItems db !! k = Some m
         ∧ MenuItem.restaurantId m = Listing.id e
         ∧ MenuItem.isAvailable m = true)
  ∧ (∀ rid,
       (∀ k m, menuItems db !! k = Some m → MenuItem.restaurantId m = rid →
          MenuItem.isAvailable m = false) →
       ∀ e, e ∈ get_all query db → Listing.id e ≠ rid).
Proof.
  assert (∀ e, e ∈ get_all query db →
            (∃ u, users db !! Listing.id e = Some u
                  ∧ User.role u = Role.restaurant)
            ∧ Listing.menuItems e ≠ []
            ∧ Listing.menuCount e = length (Listing.menuItems e)
            ∧ NoDup (Listing.menuItems e)
            ∧ ∀ k m, (k, m) ∈ Listing.menuItems e ↔
                menuItems db !! k = Some m
                ∧ MenuItem.restaurantId m = Listing.id e
                ∧ MenuItem.isAvailable m = true) as Hentries.
  { intros e (r & Hr & -> & Hcount)%get_all_elem.
    apply find_restaurants_elem in Hr as [Hrole Hu]. simpl in *.
    split; [eauto |]. split.
    { intros Hnil. rewrite Hnil in Hcount. simpl in Hcount. lia. }
    split; [done |]. split.
    { apply NoDup_filter, NoDup_map_to_list. }
    intros k m. apply find_available_elem. }
  split; [done |].
  intros rid Hnone e He <-.
  destruct (Hentries e He) as (_ & Hne & _ & _ & Hitems).
  destruct (Listing.menuItems e) as [|[k m] rest] eqn:Hm; [done |].
  destruct (proj1 (Hitems k m)) as (Hk & Hrid & Hav); [left |].
  rewrite (Hnone k m Hk Hrid) in Hav. discriminate.
Qed.

End ListingFacts.

Lemma listing_available_menu_witness :
  let e := Listing.with_menu Sample.catalog ("u-kitchen", Sample.kitchen) in
  Listing.menuItems e ≠ []
  ∧ Listing.menuCount e = length (Listing.menuItems e)
  ∧ NoDup (Listing.menuItems e).
Proof.
  cbv zeta.
  destruct (listing_available_menu (λ _, 0%float) (λ x, x) (λ x, x) (λ x _, x)
              (Listing.mkQuery None None None) Sample.catalog) as [Hentries _].
  destruct (Hentries (Listing.with_menu Sample.catalog ("u-kitchen", Sample.kitchen)))
    as (_ & Hne & Hcount & Hdup & _).
  { vm_compute. left. }
  done.
Defined.

(** ** Adding to a wishlist *)

(** Whatever the request, the route stores nothing and never answers 200:
    once the menu item is found, reading its owner throws. *)
Lemma add_item_writes_nothing now userId id body db :
  (WishlistRoute.add_item now userId id body db).2 = db
  ∧ code (WishlistRoute.add_item now userId id body db).1 ≠ 200.
Proof.
  unfold WishlistRoute.add_item.
  destruct (WishlistRoute.findOne id userId db) as [wishlist|]; [| done].
  unfold WishlistRoute.add_to_wishlist.
  destruct (WishlistRoute.menuItem body ≫= _) as [[menuItem menuItemDoc]|];
    done.
Qed.

(** C6 at its failing input.  The diner's wishlist is scoped to the kitchen
    and the dish [m1] is the kitchen's, yet the request to add it is
    answered 500 and the wishlist stays empty. *)
Theorem add_item_same_restaurant_fails :
  WishlistRoute.findOne "w1" "u-diner" Sample.catalog = Some Sample.shortlist
  ∧ (menuItems Sample.catalog !! "m1" ≫= λ m, Some (MenuItem.restaurantId m))
    = Some (Wishlist.restaurant Sample.shortlist)
  ∧ WishlistRoute.add_item Sample.clock "u-diner" "w1"
      (WishlistRoute.mkBody (Some "m1") (Some "Thali") (Some 180%float)
         (Some 1%float))
      Sample.catalog
    = (mkResponse 500 false "Failed to add item" None, Sample.catalog).
Proof. repeat split; vm_compute; reflexivity. Qed.

(** ** Ownership of menu items *)

(** C7.  For a menu item that exists, a requester that is not the owning
    restaurant gets 403 from the update and from the delete, and the store
    stays as it was; a 200 from either is given to the owner only. *)
Theorem menu_item_owner_only
    (req_user : ObjectId * User.t) (id : ObjectId) (db : DB)
    (menuItem : MenuItem.t) :
  menuItems db !! id = Some menuItem →
  (¬ owns req_user menuItem →
     (∀ body, ∃ msg,
        MenuRoute.update_menu_item req_user id body db
        = (mkResponse 403 false msg None, db))
     ∧ ∃ msg, MenuRoute.delete_menu_item req_user id db
              = (mkResponse 403 false msg None, db))
  ∧ (∀ body, code (MenuRoute.update_menu_item req_user id body db).1 = 200 →
       owns req_user menuItem)
  ∧ (code (MenuRoute.delete_menu_item req_user id db).1 = 200 →
       owns req_user menuItem).
Proof.
  intros Hitem. unfold owns, MenuRoute.update_menu_item, MenuRoute.delete_menu_item.
  rewrite Hitem.
  destruct (decide (User.role req_user.2 ≠ Role.restaurant)) as [Hr|Hr].
  { repeat split; eauto; simpl; discriminate. }
  apply dec_stable in Hr.
  destruct (decide (MenuItem.restaurantId menuItem ≠ req_user.1)) as [Ho|Ho].
  { repeat split; eauto; simpl; discriminate. }
  apply dec_stable in Ho.
  split; [| by split].
  intros Hnot. by destruct Hnot.
Qed.

Lemma menu_item_owner_only_witness :
  (∃ msg,
     MenuRoute.update_menu_item ("u-bistro", Sample.bistro) "m1"
       (MenuRoute.mkBody None None (Some 1%float) None None None None None None)
       Sample.catalog
     = (mkResponse 403 false msg None, Sample.catalog))
  ∧ (∃ msg, MenuRoute.delete_menu_item ("u-bistro", Sample.bistro) "m1" Sample.catalog
            = (mkResponse 403 false msg None, Sample.catalog))
  ∧ owns ("u-kitchen", Sample.kitchen) (Sample.dish "u-kitchen" "Thali" true).
Proof.
  destruct (menu_item_owner_only ("u-bistro", Sample.bistro) "m1" Sample.catalog
              (Sample.dish "u-kitchen" "Thali" true) eq_refl) as (Hdenied & _).
  destruct Hdenied as (Hupdate & Hdelete).
  { intros [_ Howner]. discriminate Howner. }
  split; [apply Hupdate | split; [apply Hdelete |]].
  apply (menu_item_owner_only ("u-kitchen", Sample.kitchen) "m1" Sample.catalog
           (Sample.dish "u-kitchen" "Thali" true) eq_refl).
  reflexivity.
Defined.

(** ** The rider's availability and location *)

(** What the two handlers store: the named rider, when there is one, is
    written with its defaults and the value of the body; otherwise
    nothing is written. *)
Lemma patch_availability_store (req : RiderRoute.Request RiderRoute.AvailabilityBody)
    (db : DB) :
  (RiderRoute.patch_availability req db).2
  = match named_rider (RiderRoute.av_riderId (RiderRoute.body req)) db with
    | Some (id, stored) =>
      set_users
        (<[id := available_as (RiderRoute.isAvailable (RiderRoute.body req))
                   stored]> (users db)) db
    | None => db
    end.
Proof.
  unfold RiderRoute.patch_availability, RiderRoute.find_rider, named_rider,
    User_findById.
  destruct (RiderRoute.av_riderId _) as [[id|raw]|]; [| done ..].
  destruct (users db !! id) as [stored|]; [| done].
  cbn [ok mbind option_bind fmap option_fmap option_map User.role
       User.applyDefaults].
  destruct (decide (User.role stored = Role.rider)) as [Hr|Hr].
  - rewrite decide_False by (intros Hnot; by apply Hnot).
    by destruct stored as [n ro a rd [d|]].
  - by rewrite decide_True.
Qed.

Lemma patch_location_store (now : Date)
    (req : RiderRoute.Request RiderRoute.LocationBody) (db : DB) :
  (RiderRoute.patch_location now req db).2
  = match named_rider (RiderRoute.loc_riderId (RiderRoute.body req)) db with
    | Some (id, stored) =>
      set_users
        (<[id := located_at
                   (CurrentLocation.mk
                      (RiderRoute.latitude (RiderRoute.body req))
                      (RiderRoute.longitude (RiderRoute.body req)) (Some now))
                   stored]> (users db)) db
    | None => db
    end.
Proof.
  unfold RiderRoute.patch_location, RiderRoute.find_rider, named_rider,
    User_findById.
  destruct (RiderRoute.loc_riderId _) as [[id|raw]|]; [| done ..].
  destruct (users db !! id) as [stored|]; [| done].
  cbn [ok mbind option_bind fmap option_fmap option_map User.role
       User.applyDefaults].
  destruct (decide (User.role stored = Role.rider)) as [Hr|Hr].
  - rewrite decide_False by (intros Hnot; by apply Hnot).
    by destruct stored as [n ro a rd [d|]].
  - by rewrite decide_True.
Qed.

Lemma named_rider_Some riderId db id stored :
  named_rider riderId db = Some (id, stored)
  ↔ riderId = Some (WellFormed id) ∧ users db !! id = Some stored
    ∧ User.role stored = Role.rider.
Proof.
  unfold named_rider.
  destruct riderId as [[i|raw]|];
    [| split; [done | by intros ([=] & _)] ..].
  destruct (users db !! i) as [u|] eqn:Hu; simpl.
  - destruct (decide (User.role u = Role.rider)) as [Hr|Hr]; split.
    + by intros [= <- <-].
    + intros (Hi & Hs & _). by simplify_eq.
    + done.
    + intros (Hi & Hs & ?). by simplify_eq.
  - split; [done |]. intros (Hi & Hs & _). by simplify_eq.
Qed.

(** C8: the two handlers never read the caller, and a request that
    carries no authenticated caller at all is answered 200, not 403: it
    switches the courier's availability from false to true and gives the
    courier a location. *)
Theorem rider_routes_ignore_the_caller :
  (∀ caller caller' body db,
     RiderRoute.patch_availability (RiderRoute.mkRequest caller body) db
     = RiderRoute.patch_availability (RiderRoute.mkRequest caller' body) db)
  ∧ (∀ now caller caller' body db,
       RiderRoute.patch_location now (RiderRoute.mkRequest caller body) db
       = RiderRoute.patch_location now (RiderRoute.mkRequest caller' body) db)
  ∧ let anonymous_flag :=
      RiderRoute.patch_availability
        (RiderRoute.mkRequest None
           (RiderRoute.mkAvailabilityBody (Some (WellFormed "u-courier"))
              (Some true)))
        Sample.busy in
    let anonymous_move :=
      RiderRoute.patch_location Sample.clock
        (RiderRoute.mkRequest None
           (RiderRoute.mkLocationBody (Some (WellFormed "u-courier"))
              (Some 12.5%float) (Some 77.5%float)))
        Sample.busy in
    rider_isAvailable "u-courier" Sample.busy = Some false
    ∧ anonymous_flag.1
      = mkResponse 200 true "Rider is now available" (Some (Some true))
    ∧ rider_isAvailable "u-courier" anonymous_flag.2 = Some true
    ∧ rider_location "u-courier" Sample.busy = None
    ∧ anonymous_move.1
      = mkResponse 200 true "Location updated successfully"
          (Some (Some 12.5%float, Some 77.5%float))
    ∧ rider_location "u-courier" anonymous_move.2
      = Some (CurrentLocation.mk (Some 12.5%float) (Some 77.5%float)
                (Some Sample.clock)).
Proof.
  split; [done | split; [done |]].
  cbv zeta. repeat split; vm_compute; reflexivity.
Qed.

(** ** The public profile *)

Lemma toJSON_lookup (user : gmap string UserSchema.JsValue) (k : string) :
  UserSchema.toJSON user !! k
  = if decide (k ∈ private_fields) then None else user !! k.
Proof.
  unfold UserSchema.toJSON. rewrite !lookup_delete.
  destruct (decide (k ∈ private_fields)) as [Hin|Hout].
  - unfold private_fields in Hin.
    repeat (apply elem_of_cons in Hin as [->|Hin]);
      [.. | by apply elem_of_nil in Hin]; by repeat case_decide.
  - unfold private_fields in Hout.
    repeat (apply not_elem_of_cons in Hout as [? Hout]).
    by rewrite !decide_False.
Qed.

(** C10.  The serialization has none of [password], [passwordResetToken]
    and [passwordResetExpires], keeps every other field as it is, and is
    the same for two users that differ in those three fields only. *)
Theorem toJSON_hides_credentials (user other : gmap string UserSchema.JsValue) :
  (∀ k, k ∈ private_fields → UserSchema.toJSON user !! k = None)
  ∧ (∀ k, k ∉ private_fields → UserSchema.toJSON user !! k = user !! k)
  ∧ ((∀ k, k ∉ private_fields → user !! k = other !! k) →
     UserSchema.toJSON user = UserSchema.toJSON other).
Proof.
  split; [| split].
  - intros k Hk. rewrite toJSON_lookup. by rewrite decide_True.
  - intros k Hk. rewrite toJSON_lookup. by rewrite decide_False.
  - intros Hsame. apply map_eq. intros k. rewrite !toJSON_lookup.
    case_decide; [done |]. by apply Hsame.
Qed.

Lemma toJSON_hides_credentials_witness :
  UserSchema.toJSON Sample.account !! "password" = None
  ∧ UserSchema.toJSON Sample.account !! "email" = Sample.account !! "email"
  ∧ UserSchema.toJSON Sample.account = UserSchema.toJSON Sample.account_reset.
Proof.
  destruct (toJSON_hides_credentials Sample.account Sample.account_reset)
    as (Hnone & Hkeep & Hsame).
  split; [apply Hnone; unfold private_fields; apply list_elem_of_here |].
  split.
  - apply Hkeep. unfold private_fields. rewrite !not_elem_of_cons.
    repeat split; [discriminate.. | apply not_elem_of_nil].
  - apply Hsame. intros k Hk. unfold private_fields in Hk.
    repeat (apply not_elem_of_cons in Hk as [? Hk]).
    unfold Sample.account, Sample.account_reset.
    rewrite !lookup_insert. repeat case_decide; by subst.
Defined.

(** ** More on the kitchen switch *)







Lemma same_but_flag_set (b : bool) (user : User.t) :
  same_but_flag user
    (User.set_restaurantDetails
       (RestaurantDetails.set_isKitchenOpen b
          (default RestaurantDetails.empty (User.restaurantDetails user))) user).
Proof. unfold same_but_flag. simpl. by destruct (User.restaurantDetails user). Qed.

(** X3.  Whatever the request, the switch touches the requester's own
    document only, and of that the flag only: the other collections and
    the other users stay as they are, and the requester's document is
    either left as it is stored or written with its defaults and, but
    for the flag, the fields it had. *)
Theorem toggle_kitchen_writes_the_flag_only
    (req_user : ObjectId * User.t) (db : DB) :
  orders (Kitchen.toggle_kitchen req_user db).2 = orders db
  ∧ menuItems (Kitchen.toggle_kitchen req_user db).2 = menuItems db
  ∧ wishlists (Kitchen.toggle_kitchen req_user db).2 = wishlists db
  ∧ (∀ id, id ≠ req_user.1 →
       users (Kitchen.toggle_kitchen req_user db).2 !! id = users db !! id)
  ∧ (∀ user', users (Kitchen.toggle_kitchen req_user db).2 !! req_user.1
              = Some user' →
       ∃ user, users db !! req_user.1 = Some user
               ∧ (user' = user
                  ∨ same_but_flag (User.applyDefaults user) user')).
Proof.
  destruct (decide (User.role req_user.2 = Role.restaurant)) as [Hrole|Hrole].
  2: { unfold Kitchen.toggle_kitchen. rewrite decide_True by done.
       cbn [snd]. repeat split; eauto. }
  destruct (users db !! req_user.1) as [user|] eqn:Huser.
  2: { unfold Kitchen.toggle_kitchen, User_findById.
       rewrite decide_False by (intros H; by apply H).
       rewrite Huser. cbn [fmap option_fmap option_map snd].
       repeat split; try done. intros user'. by rewrite Huser. }
  rewrite (toggle_kitchen_run req_user user db Hrole Huser). cbv zeta.
  destruct (_ && _); cbn [snd orders menuItems wishlists users set_users].
  - repeat split; try done. intros user' Hu'. exists user.
    split; [done |]. left. congruence.
  - repeat split; try done.
    + intros id Hid. by rewrite lookup_insert_ne.
    + rewrite lookup_insert_eq. intros user' [= <-]. exists user.
      split; [done |]. right. apply same_but_flag_set.
Qed.

(** ** More on the public listing *)

Section ListingMore.

Variable parseFloat : string → float.
Variables Math_sin Math_cos : float → float.
Variable Math_atan2 : float → float → float.

Local Abbreviation get_all :=
  (Listing.get_all parseFloat Math_sin Math_cos Math_atan2).

(** The list before the distance filter. *)
Lemma get_all_without_position (query : Listing.Query) (db : DB) :
  Js.truthy_str (Listing.latitude query) && Js.truthy_str (Listing.longitude query)
    = false →
  get_all query db
  = filter (λ r, 0 < Listing.menuCount r)
           (Listing.with_menu db <$> Listing.find_restaurants db).
Proof. unfold Listing.get_all. by intros ->. Qed.

(** A restaurant account with an available item has its entry in the list
    before the distance filter. *)
Lemma with_menu_listed (query : Listing.Query) (db : DB) (rid k : ObjectId)
    (u : User.t) (m : MenuItem.t) :
  Js.truthy_str (Listing.latitude query) && Js.truthy_str (Listing.longitude query)
    = false →
  users db !! rid = Some u → User.role u = Role.restaurant →
  menuItems db !! k = Some m →
  MenuItem.restaurantId m = rid → MenuItem.isAvailable m = true →
  Listing.with_menu db (rid, u) ∈ get_all query db
  ∧ (k, m) ∈ Listing.menuItems (Listing.with_menu db (rid, u)).
Proof.
  intros Hq Hu Hrole Hm Hrid Hav. rewrite get_all_without_position by done.
  assert ((k, m) ∈ Listing.find_available rid db) as Hin
    by by apply find_available_elem.
  split; [| done].
  apply list_elem_of_filter. split.
  - simpl. destruct (Listing.find_available rid db); [| simpl; lia].
    by apply elem_of_nil in Hin.
  - apply list_elem_of_fmap. exists (rid, u). split; [done |].
    by apply find_restaurants_elem.
Qed.

(** X4.  Without a position in the query (either coordinate absent or
    empty), every restaurant account that has an available menu item is
    listed, open or closed, with or without coordinates, and the item is
    among its [menuItems]. *)
Theorem listing_complete_without_position
    (query : Listing.Query) (db : DB) (rid k : ObjectId)
    (u : User.t) (m : MenuItem.t) :
  Js.truthy_str (Listing.latitude query) && Js.truthy_str (Listing.longitude query)
    = false →
  users db !! rid = Some u → User.role u = Role.restaurant →
  menuItems db !! k = Some m →
  MenuItem.restaurantId m = rid → MenuItem.isAvailable m = true →
  ∃ e, e ∈ get_all query db
       ∧ Listing.id e = rid ∧ (k, m) ∈ Listing.menuItems e.
Proof.
  intros Hq Hu Hrole Hm Hrid Hav.
  destruct (with_menu_listed query db rid k u m) as [He Hin]; try done.
  exists (Listing.with_menu db (rid, u)). by split.
Qed.

Lemma in_range_coordinates userLat userLon maxDist (r : Listing.Entry) :
  Listing.in_range Math_sin Math_cos Math_atan2 userLat userLon maxDist r = true →
  ∃ lat lon,
    Address.latitude (Listing.address r) = Some lat
    ∧ Address.longitude (Listing.address r) = Some lon
    ∧ Js.truthy lat = true ∧ Js.truthy lon = true
    ∧ PrimFloat.leb
        (Listing.calculateDistance Math_sin Math_cos Math_atan2
           userLat userLon lat lon) maxDist = true.
Proof.
  unfold Listing.in_range.
  destruct (Address.latitude _) as [lat|], (Address.longitude _) as [lon|];
    simpl; try done.
  - destruct (Js.truthy lat) eqn:Hlat, (Js.truthy lon) eqn:Hlon;
      simpl; try done. eauto 10.
  - by destruct (Js.truthy lat).
Qed.

(** X5.  A position in the query only narrows the list: what is listed
    with it is listed without it, has both coordinates stored and
    non-zero, and lies within [maxDistance] (25 by default) by the
    Haversine distance. *)
Theorem listing_position_narrows
    (query : Listing.Query) (db : DB) (e : Listing.Entry) :
  e ∈ get_all query db →
  e ∈ get_all (Listing.mkQuery None None None) db
  ∧ (Js.truthy_str (Listing.latitude query)
     && Js.truthy_str (Listing.longitude query) = true →
     ∃ lat lon,
       Address.latitude (Listing.address e) = Some lat
       ∧ Address.longitude (Listing.address e) = Some lon
       ∧ Js.truthy lat = true ∧ Js.truthy lon = true
       ∧ PrimFloat.leb
           (Listing.calculateDistance Math_sin Math_cos Math_atan2
              (parseFloat (default "" (Listing.latitude query)))
              (parseFloat (default "" (Listing.longitude query))) lat lon)
           (from_option parseFloat 25%float (Listing.maxDistance query)) = true).
Proof.
  rewrite (get_all_without_position (Listing.mkQuery None None None)) by done.
  unfold Listing.get_all.
  destruct (Js.truthy_str _ && Js.truthy_str _).
  - intros [Hrange He]%list_elem_of_filter. split; [done |]. intros _.
    apply Is_true_true in Hrange.
    destruct (in_range_coordinates _ _ _ _ Hrange) as (lat & lon & ?).
    exists lat, lon. by destruct (Listing.maxDistance query).
  - intros He. by split.
Qed.

Lemma leb_nan (x : float) : PrimFloat.leb x nan = false.
Proof.
  rewrite leb_spec. change (Prim2SF nan) with S754_nan.
  by destruct (Prim2SF x).
Qed.

(** X6.  When the query has a position and its [maxDistance] does not
    parse to a number ([parseFloat] gives [NaN], as for an empty or a
    non-numeric string), the answer is the empty list: no radius is
    substituted. *)
Theorem listing_unparsable_radius (query : Listing.Query) (db : DB) (s : string) :
  Js.truthy_str (Listing.latitude query) && Js.truthy_str (Listing.longitude query)
    = true →
  Listing.maxDistance query = Some s → parseFloat s = nan →
  get_all query db = [].
Proof.
  intros Hq Hs Hnan. unfold Listing.get_all. rewrite Hq, Hs, Hnan.
  apply elem_of_nil_inv. intros e [Hrange _]%list_elem_of_filter.
  apply Is_true_true in Hrange.
  apply in_range_coordinates in Hrange as (lat & lon & _ & _ & _ & _ & Hleb).
  by rewrite leb_nan in Hleb.
Qed.

End ListingMore.

Lemma listing_complete_without_position_witness :
  ∃ e, e ∈ Listing.get_all (λ _, 0%float) (λ x, x) (λ x, x) (λ x _, x)
             (Listing.mkQuery None (Some "77.6") None) Fixture.town
       ∧ Listing.id e = "u-cafe"
       ∧ ("m5", Sample.dish "u-cafe" "Filter coffee" true) ∈ Listing.menuItems e.
Proof.
  apply (listing_complete_without_position (λ _, 0%float) (λ x, x) (λ x, x)
           (λ x _, x) (Listing.mkQuery None (Some "77.6") None) Fixture.town
           "u-cafe" "m5" Fixture.cafe);
    reflexivity.
Defined.

Lemma listing_position_narrows_witness :
  Listing.with_menu Fixture.town ("u-cafe", Fixture.cafe)
  ∈ Listing.get_all (λ _, 1%float) (λ _, 0%float) (λ _, 0%float) (λ _ _, 0%float)
      (Listing.mkQuery None None None) Fixture.town.
Proof.
  apply (listing_position_narrows (λ _, 1%float) (λ _, 0%float) (λ _, 0%float)
           (λ _ _, 0%float) (Listing.mkQuery (Some "12.9") (Some "77.6") None)
           Fixture.town).
  vm_compute. left.
Defined.

Lemma listing_unparsable_radius_witness :
  Listing.get_all (λ _, nan) (λ x, x) (λ x, x) (λ x _, x)
    (Listing.mkQuery (Some "12.9") (Some "77.6") (Some "near")) Fixture.town
  = [].
Proof.
  apply (listing_unparsable_radius (λ _, nan) (λ x, x) (λ x, x) (λ x _, x)
           (Listing.mkQuery (Some "12.9") (Some "77.6") (Some "near"))
           Fixture.town "near");
    reflexivity.
Defined.

(** ** More on the menu routes *)

(** *** Updating *)

Lemma assign_idemp (body : MenuRoute.Body) (m : MenuItem.t) :
  MenuRoute.assign body (MenuRoute.assign body m) = MenuRoute.assign body m.
Proof.
  unfold MenuRoute.assign. destruct body as [n d p c cu sc i v av]. simpl.
  f_equal.
  - by destruct n.
  - by destruct d.
  - by destruct p.
  - by destruct c.
  - by destruct cu.
  - by destruct sc.
  - by destruct i.
  - by destruct v.
  - by destruct av.
Qed.

Lemma db_menuItems_id (db : DB) : set_menuItems (menuItems db) db = db.
Proof. by destruct db. Qed.

(** X7.  The three menu routes keep the collection valid: when every
    stored menu item passes the validators of the schema (the lengths
    counted as [s.length] counts them), so does every item stored after a
    creation, an update or a deletion, whatever the request. *)
Theorem menu_routes_keep_items_valid
    (new_id id : ObjectId) (req_user : ObjectId * User.t)
    (body : MenuRoute.Body) (db : DB) :
  menu_valid db →
  menu_valid (MenuCreate.create_menu_item new_id req_user body db).2
  ∧ menu_valid (MenuRoute.update_menu_item req_user id body db).2
  ∧ menu_valid (MenuRoute.delete_menu_item req_user id db).2.
Proof.
  intros Hvalid. split; [| split].
  - unfold MenuCreate.create_menu_item.
    repeat case_match; simpl; try exact Hvalid.
    intros k m. simpl. destruct (decide (new_id = k)) as [<-|Hk].
    + rewrite lookup_insert_eq. by intros [= <-].
    + rewrite lookup_insert_ne by done. apply Hvalid.
  - unfold MenuRoute.update_menu_item.
    repeat case_match; simpl; try exact Hvalid.
    intros k m. simpl. destruct (decide (id = k)) as [<-|Hk].
    + rewrite lookup_insert_eq. by intros [= <-].
    + rewrite lookup_insert_ne by done. apply Hvalid.
  - unfold MenuRoute.delete_menu_item.
    repeat case_match; simpl; try exact Hvalid.
    intros k m. simpl. intros [_ Hm]%lookup_delete_Some. by apply (Hvalid k).
Qed.

Lemma menu_routes_keep_items_valid_witness :
  menu_valid
    (MenuCreate.create_menu_item "m7" ("u-kitchen", Sample.kitchen)
       Fixture.new_dish Sample.catalog).2
  ∧ (MenuItem.name <$>
       menuItems
         (MenuCreate.create_menu_item "m7" ("u-kitchen", Sample.kitchen)
            Fixture.new_dish Sample.catalog).2 !! "m7") = Some "Dal"
  ∧ MenuRoute.update_menu_item ("u-kitchen", Sample.kitchen) "m1"
      Fixture.one_letter Sample.catalog
    = (mkResponse 500 false "Failed to update menu item" None, Sample.catalog).
Proof.
  split; [| split; reflexivity].
  apply (menu_routes_keep_items_valid "m7" "m1" ("u-kitchen", Sample.kitchen)
           Fixture.new_dish Sample.catalog).
  intros k m. unfold Sample.catalog. simpl.
  rewrite !lookup_insert. repeat case_decide; by intros [= <-].
Defined.

(** X8.  An update never moves a menu item to another restaurant and
    never adds or removes one: every key keeps its owner, every other
    item stays as it is, and so do the other collections. *)
Theorem update_keeps_owners
    (req_user : ObjectId * User.t) (id : ObjectId) (body : MenuRoute.Body)
    (db : DB) :
  (∀ k, MenuItem.restaurantId
          <$> menuItems (MenuRoute.update_menu_item req_user id body db).2 !! k
        = MenuItem.restaurantId <$> menuItems db !! k)
  ∧ (∀ k, k ≠ id →
       menuItems (MenuRoute.update_menu_item req_user id body db).2 !! k
       = menuItems db !! k)
  ∧ users (MenuRoute.update_menu_item req_user id body db).2 = users db
  ∧ orders (MenuRoute.update_menu_item req_user id body db).2 = orders db
  ∧ wishlists (MenuRoute.update_menu_item req_user id body db).2 = wishlists db.
Proof.
  unfold MenuRoute.update_menu_item.
  destruct (decide (User.role req_user.2 ≠ Role.restaurant)); [done |].
  destruct (menuItems db !! id) as [menuItem|] eqn:Hitem; [| done].
  destruct (decide (MenuItem.restaurantId menuItem ≠ req_user.1)); [done |].
  destruct (MenuRoute.schema_valid _); [| done]. simpl. repeat split.
  - intros k. destruct (decide (id = k)) as [<-|Hk].
    + rewrite lookup_insert_eq. by rewrite Hitem.
    + by rewrite lookup_insert_ne.
  - intros k Hk. by rewrite lookup_insert_ne.
Qed.

(** X9.  Updating is idempotent: the same request sent again, on the
    store the first one left, gets the same answer and leaves that
    store. *)
Theorem update_idempotent
    (req_user : ObjectId * User.t) (id : ObjectId) (body : MenuRoute.Body)
    (db : DB) :
  MenuRoute.update_menu_item req_user id body
    (MenuRoute.update_menu_item req_user id body db).2
  = MenuRoute.update_menu_item req_user id body db.
Proof.
  destruct (MenuRoute.update_menu_item req_user id body db) as [res db1] eqn:Hrun.
  simpl. revert Hrun. unfold MenuRoute.update_menu_item.
  destruct (decide (User.role req_user.2 ≠ Role.restaurant)) as [|Hrole].
  { intros [= <- <-]. done. }
  destruct (menuItems db !! id) as [menuItem|] eqn:Hitem.
  2: { intros [= <- <-]. by rewrite Hitem. }
  destruct (decide (MenuItem.restaurantId menuItem ≠ req_user.1)) as [|Howner].
  { intros [= <- <-]. rewrite Hitem. by rewrite decide_True. }
  destruct (MenuRoute.schema_valid _) eqn:Hvalid.
  2: { intros [= <- <-]. rewrite Hitem, Hvalid. by rewrite decide_False. }
  intros [= <- <-]. simpl. rewrite lookup_insert_eq.
  rewrite decide_False by done. rewrite assign_idemp, Hvalid.
  by rewrite insert_insert_eq.
Qed.

(** X10.  An update by the owner that assigns nothing changes nothing:
    it is answered 200 with the item as it is stored when that item
    passes the validators of the schema, and 500 when it does not. *)
Theorem update_with_empty_body
    (req_user : ObjectId * User.t) (id : ObjectId) (db : DB)
    (menuItem : MenuItem.t) :
  menuItems db !! id = Some menuItem → owns req_user menuItem →
  MenuRoute.update_menu_item req_user id empty_body db
  = (if MenuRoute.schema_valid menuItem
     then mkResponse 200 true "Menu item updated successfully" (Some menuItem)
     else mkResponse 500 false "Failed to update menu item" None,
     db).
Proof.
  intros Hitem [Hrole Howner]. unfold MenuRoute.update_menu_item.
  rewrite decide_False by (intros H; by apply H).
  rewrite Hitem. rewrite decide_False by (intros H; by apply H).
  assert (MenuRoute.assign empty_body menuItem = menuItem) as ->
    by by destruct menuItem.
  destruct (MenuRoute.schema_valid menuItem); [| done].
  simpl. by rewrite insert_id, db_menuItems_id.
Qed.

Lemma update_with_empty_body_witness :
  MenuRoute.update_menu_item ("u-kitchen", Sample.kitchen) "m2" empty_body
    Sample.catalog
  = (mkResponse 200 true "Menu item updated successfully"
       (Some (Sample.dish "u-kitchen" "Kulfi" false)), Sample.catalog)
  ∧ MenuRoute.update_menu_item ("u-kitchen", Sample.kitchen) "m4" empty_body
      Fixture.mispriced
    = (mkResponse 500 false "Failed to update menu item" None,
       Fixture.mispriced).
Proof.
  split.
  - apply (update_with_empty_body ("u-kitchen", Sample.kitchen) "m2"
             Sample.catalog (Sample.dish "u-kitchen" "Kulfi" false));
      [reflexivity | by split].
  - apply (update_with_empty_body ("u-kitchen", Sample.kitchen) "m4"
             Fixture.mispriced Fixture.below_zero); [reflexivity | by split].
Defined.

(** X11.  After its owner deleted it, a menu item is gone and the other
    items are untouched; updating or deleting it again is answered 404. *)
Theorem delete_then_gone
    (req_user : ObjectId * User.t) (id : ObjectId) (db : DB)
    (menuItem : MenuItem.t) :
  menuItems db !! id = Some menuItem → owns req_user menuItem →
  let db' := (MenuRoute.delete_menu_item req_user id db).2 in
  menuItems db' !! id = None
  ∧ (∀ k, k ≠ id → menuItems db' !! k = menuItems db !! k)
  ∧ (∀ body, MenuRoute.update_menu_item req_user id body db'
             = (mkResponse 404 false "Menu item not found" None, db'))
  ∧ MenuRoute.delete_menu_item req_user id db'
    = (mkResponse 404 false "Menu item not found" None, db').
Proof.
  intros Hitem [Hrole Howner] db'.
  assert (db' = set_menuItems (delete id (menuItems db)) db) as ->.
  { subst db'. unfold MenuRoute.delete_menu_item.
    rewrite decide_False by (intros H; by apply H).
    rewrite Hitem. by rewrite decide_False by (intros H; by apply H). }
  repeat split.
  - apply lookup_delete_eq.
  - intros k Hk. simpl. by rewrite lookup_delete_ne.
  - intros body. unfold MenuRoute.update_menu_item.
    rewrite decide_False by (intros H; by apply H).
    simpl. by rewrite lookup_delete_eq.
  - unfold MenuRoute.delete_menu_item.
    rewrite decide_False by (intros H; by apply H).
    simpl. by rewrite lookup_delete_eq.
Qed.

Lemma delete_then_gone_witness :
  let db' :=
    (MenuRoute.delete_menu_item ("u-kitchen", Sample.kitchen) "m1"
       Sample.catalog).2 in
  menuItems db' !! "m1" = None
  ∧ MenuRoute.delete_menu_item ("u-kitchen", Sample.kitchen) "m1" db'
    = (mkResponse 404 false "Menu item not found" None, db').
Proof.
  cbv zeta.
  destruct (delete_then_gone ("u-kitchen", Sample.kitchen) "m1" Sample.catalog
              (Sample.dish "u-kitchen" "Thali" true) eq_refl)
    as (Hgone & _ & _ & Hagain); [by split |].
  by split.
Defined.

(** *** Creating *)

(** What a creation answered 201 has done. *)
Lemma create_menu_item_201
    (new_id : ObjectId) (req_user : ObjectId * User.t) (body : MenuRoute.Body)
    (db : DB) :
  code (MenuCreate.create_menu_item new_id req_user body db).1 = 201 →
  User.role req_user.2 = Role.restaurant
  ∧ menuItems db !! new_id = None
  ∧ (MenuCreate.create_menu_item new_id req_user body db).2
    = set_menuItems
        (<[new_id := MenuCreate.new_item req_user.1 body]> (menuItems db)) db.
Proof.
  unfold MenuCreate.create_menu_item.
  destruct (decide (User.role req_user.2 ≠ Role.restaurant)) as [|Hrole];
    [done |].
  apply dec_stable in Hrole.
  by repeat case_match.
Qed.

(** X12.  A menu item is created for the requester and for nobody else:
    an answer 201 is given to a restaurant account only, the new document
    is stored under the fresh [_id] with the requester as its owner, and
    the items that were there are untouched. *)
Theorem create_stores_for_the_requester
    (new_id : ObjectId) (req_user : ObjectId * User.t) (body : MenuRoute.Body)
    (db : DB) :
  code (MenuCreate.create_menu_item new_id req_user body db).1 = 201 →
  User.role req_user.2 = Role.restaurant
  ∧ menuItems db !! new_id = None
  ∧ (∃ menuItem,
       menuItems (MenuCreate.create_menu_item new_id req_user body db).2 !! new_id
       = Some menuItem
       ∧ MenuItem.restaurantId menuItem = req_user.1)
  ∧ (∀ k, k ≠ new_id →
       menuItems (MenuCreate.create_menu_item new_id req_user body db).2 !! k
       = menuItems db !! k)
  ∧ users (MenuCreate.create_menu_item new_id req_user body db).2 = users db.
Proof.
  intros (Hrole & Hfree & ->)%create_menu_item_201. simpl.
  repeat split; try done.
  - rewrite lookup_insert_eq. eauto.
  - intros k Hk. by rewrite lookup_insert_ne.
Qed.

Lemma create_stores_for_the_requester_witness :
  menuItems Sample.catalog !! "m7" = None
  ∧ ∃ menuItem,
      menuItems
        (MenuCreate.create_menu_item "m7" ("u-kitchen", Sample.kitchen)
           Fixture.new_dish Sample.catalog).2 !! "m7" = Some menuItem
      ∧ MenuItem.restaurantId menuItem = "u-kitchen".
Proof.
  destruct (create_stores_for_the_requester "m7" ("u-kitchen", Sample.kitchen)
              Fixture.new_dish Sample.catalog eq_refl)
    as (_ & Hfree & Hstored & _).
  by split.
Defined.

(** X13.  A price given as the number 0 is taken for a missing field by
    the creation, which answers 400 (as for no price and for [NaN]),
    although the validator of the schema accepts 0: by an update, the
    owner of an item that passes the validators sets its price to 0 and
    is answered 200. *)
Theorem zero_price_create_and_update
    (req_user : ObjectId * User.t) (db : DB) :
  User.role req_user.2 = Role.restaurant →
  (∀ new_id body, Js.truthy_opt (MenuRoute.price body) = false →
     ∃ msg, MenuCreate.create_menu_item new_id req_user body db
            = (mkResponse 400 false msg None, db))
  ∧ MenuRoute.price_valid 0%float = true
  ∧ (∀ id menuItem,
       menuItems db !! id = Some menuItem →
       MenuItem.restaurantId menuItem = req_user.1 →
       MenuRoute.schema_valid menuItem = true →
       let out :=
         MenuRoute.update_menu_item req_user id
           (MenuRoute.mkBody None None (Some 0%float) None None None None None None)
           db in
       code out.1 = 200
       ∧ MenuItem.price <$> menuItems out.2 !! id = Some 0%float).
Proof.
  intros Hrole. split; [| split; [done |]].
  - intros new_id body Hprice. unfold MenuCreate.create_menu_item.
    rewrite decide_False by (intros H; by apply H).
    unfold MenuCreate.required_given. rewrite Hprice.
    rewrite !andb_false_r, andb_false_l. simpl. eauto.
  - intros id menuItem Hitem Howner Hvalid. unfold MenuRoute.update_menu_item.
    rewrite decide_False by (intros H; by apply H).
    rewrite Hitem. rewrite decide_False by (intros H; by apply H).
    assert (MenuRoute.schema_valid
              (MenuRoute.assign
                 (MenuRoute.mkBody None None (Some 0%float) None None None None
                    None None) menuItem) = true) as ->.
    { revert Hvalid. unfold MenuRoute.schema_valid. destruct menuItem. simpl.
      rewrite !andb_true_iff. intros ((((((? & ?) & _) & ?) & ?) & ?) & ?).
      by repeat split. }
    simpl. by rewrite lookup_insert_eq.
Qed.

Lemma zero_price_create_and_update_witness :
  (∃ msg, MenuCreate.create_menu_item "m7" ("u-kitchen", Sample.kitchen)
            Fixture.free_dish Sample.catalog
          = (mkResponse 400 false msg None, Sample.catalog))
  ∧ MenuItem.price
      <$> menuItems
            (MenuRoute.update_menu_item ("u-kitchen", Sample.kitchen) "m1"
               (MenuRoute.mkBody None None (Some 0%float) None None None None
                  None None)
               Sample.catalog).2 !! "m1"
    = Some 0%float.
Proof.
  destruct (zero_price_create_and_update ("u-kitchen", Sample.kitchen)
              Sample.catalog eq_refl) as (Hcreate & _ & Hupdate).
  split.
  - apply Hcreate. reflexivity.
  - apply (Hupdate "m1" (Sample.dish "u-kitchen" "Thali" true)); reflexivity.
Defined.

Section CreatedIsListed.

Variable parseFloat : string → float.
Variables Math_sin Math_cos : float → float.
Variable Math_atan2 : float → float → float.

(** X14.  A restaurant that has just created an item, not marked
    unavailable, is on the public list without a position, with that item
    among its [menuItems]. *)
Theorem created_item_is_listed
    (new_id : ObjectId) (req_user : ObjectId * User.t) (body : MenuRoute.Body)
    (query : Listing.Query) (db : DB) :
  users db !! req_user.1 = Some req_user.2 →
  code (MenuCreate.create_menu_item new_id req_user body db).1 = 201 →
  MenuRoute.isAvailable body ≠ Some false →
  Js.truthy_str (Listing.latitude query) && Js.truthy_str (Listing.longitude query)
    = false →
  ∃ e menuItem,
    e ∈ Listing.get_all parseFloat Math_sin Math_cos Math_atan2 query
          (MenuCreate.create_menu_item new_id req_user body db).2
    ∧ Listing.id e = req_user.1
    ∧ (new_id, menuItem) ∈ Listing.menuItems e.
Proof.
  intros Huser (Hrole & Hfree & ->)%create_menu_item_201 Hav Hq.
  destruct (with_menu_listed parseFloat Math_sin Math_cos Math_atan2 query
              (set_menuItems
                 (<[new_id := MenuCreate.new_item req_user.1 body]> (menuItems db))
                 db)
              req_user.1 new_id req_user.2 (MenuCreate.new_item req_user.1 body))
    as [He Hin]; try done.
  - simpl. apply lookup_insert_eq.
  - simpl. by destruct (MenuRoute.isAvailable body) as [[]|].
  - eauto.
Qed.

End CreatedIsListed.

Lemma created_item_is_listed_witness :
  ∃ e menuItem,
    e ∈ Listing.get_all (λ _, 0%float) (λ x, x) (λ x, x) (λ x _, x)
          (Listing.mkQuery None None None)
          (MenuCreate.create_menu_item "m7" ("u-bistro", Sample.bistro)
             Fixture.new_dish Sample.catalog).2
    ∧ Listing.id e = "u-bistro"
    ∧ ("m7", menuItem) ∈ Listing.menuItems e.
Proof.
  apply (created_item_is_listed (λ _, 0%float) (λ x, x) (λ x, x) (λ x _, x)
           "m7" ("u-bistro", Sample.bistro) Fixture.new_dish
           (Listing.mkQuery None None None) Sample.catalog);
    [reflexivity | reflexivity | discriminate | reflexivity].
Defined.

(** ** More on rating *)

Section RatingMore.

Variable Order_validate : Order.t → bool.
Variable body : RatingRoute.Body.

Lemma populate_Some (db : DB) (ref : option ObjectId) (p : ObjectId * User.t) :
  RatingRoute.populate db ref = Some p → ref = Some p.1 ∧ users db !! p.1 = Some p.2.
Proof.
  unfold RatingRoute.populate. destruct ref as [id|]; [| done]. simpl.
  destruct (users db !! id) as [u|] eqn:Hu; [| done]. simpl.
  by intros [= <-].
Qed.


(** X15.  A rating submission touches two accounts at most, the order's
    restaurant and the order's rider: every other user, the menu items,
    the wishlists and the other orders are as before, no account appears
    or disappears, and no role changes. *)
Theorem rating_touches_the_rated_only (now : Date) (orderId : ObjectId) (db : DB) :
  let db' := (RatingRoute.rate_order Order_validate now body orderId db).2 in
  menuItems db' = menuItems db
  ∧ wishlists db' = wishlists db
  ∧ (∀ k, k ≠ orderId → orders db' !! k = orders db !! k)
  ∧ (∀ id, User.role <$> users db' !! id = User.role <$> users db !! id)
  ∧ (∀ id,
       (∀ order, orders db !! orderId = Some order →
          Order.restaurant order ≠ id ∧ Order.rider order ≠ Some id) →
       users db' !! id = users db !! id).
Proof.
  unfold RatingRoute.rate_order.
  destruct (orders db !! orderId) as [order|] eqn:Ho; [| done].
  destruct (decide (Order.status order ≠ delivered)); [done |].
  destruct (RatingRoute.rate_restaurant _ _ _ _ _) as [|[order1 db1]] eqn:H1;
    [done |].
  apply rate_restaurant_frame in H1 as (Ho1 & Hm1 & Hw1 & Hr1 & Hu1).
  assert (∀ id, Order.restaurant order ≠ id →
            users db1 !! id = users db !! id) as Hu1'.
  { intros id Hid. apply Hu1. intros p [[= <-] _]%populate_Some. done. }
  destruct (RatingRoute.rate_rider _ _ _ _ _) as [|[order2 db2]] eqn:H2.
  { simpl. repeat split; try done. intros k _. by rewrite Ho1.
    intros id Hid. apply Hu1'. by apply (Hid order). }
  apply rate_rider_frame in H2 as (Ho2 & Hm2 & Hw2 & Hr2 & Hu2).
  assert (∀ id, Order.rider order ≠ Some id →
            users db2 !! id = users db1 !! id) as Hu2'.
  { intros id Hid. apply Hu2. intros p [Hp _]%populate_Some. congruence. }
  assert (users db2 = users
            (if Order_validate order2
             then (mkResponse 200 true "Ratings submitted successfully"
                     (Some order2),
                   set_orders (<[orderId := order2]> (orders db2)) db2)
             else (RatingRoute.error_response, db2)).2) as Husers
    by by destruct (Order_validate order2).
  repeat split.
  - destruct (Order_validate order2); simpl; congruence.
  - destruct (Order_validate order2); simpl; congruence.
  - intros k Hk. destruct (Order_validate order2); simpl.
    + rewrite lookup_insert_ne by done. congruence.
    + congruence.
  - intros id. rewrite <- Husers. by rewrite Hr2, Hr1.
  - intros id Hid. rewrite <- Husers. destruct (Hid order eq_refl) as [Hrest Hrid].
    rewrite Hu2' by done. by apply Hu1'.
Qed.




(** X17.  A submission that rates nobody changes nothing and is still
    answered 200: this is what happens to a rider's rating when the order
    has no rider and the restaurant's rating is absent or 0. *)
Theorem rating_for_nobody
    (now : Date) (orderId : ObjectId) (db : DB) (order : Order.t) :
  orders db !! orderId = Some order → Order.status order = delivered →
  Js.truthy_opt (RatingRoute.restaurantRating body) = false →
  Order.rider order = None →
  Order_validate order = true →
  RatingRoute.rate_order Order_validate now body orderId db
  = (mkResponse 200 true "Ratings submitted successfully" (Some order), db).
Proof.
  intros Ho Hs Hrest Hrider Hvalid. unfold RatingRoute.rate_order.
  rewrite Ho. rewrite decide_False by (intros H; by apply H).
  assert (RatingRoute.rate_restaurant now body
            (RatingRoute.populate db (Some (Order.restaurant order))) order db
          = inr (order, db)) as ->.
  { unfold RatingRoute.rate_restaurant.
    destruct (RatingRoute.restaurantRating body) as [r|]; [| done].
    simpl in Hrest. by rewrite Hrest. }
  rewrite Hrider.
  assert (RatingRoute.rate_rider now body (RatingRoute.populate db None) order db
          = inr (order, db)) as ->.
  { unfold RatingRoute.rate_rider. simpl.
    by destruct (RatingRoute.riderRating body). }
  rewrite Hvalid. rewrite insert_id by done. by destruct db.
Qed.



End RatingMore.


Lemma rating_for_nobody_witness :
  RatingRoute.rate_order (λ _, true) Sample.clock
    (RatingRoute.mkBody (Some 0%float) None (Some 4%float) (Some "fast")) "o5"
    Sample.rated
  = (mkResponse 200 true "Ratings submitted successfully"
       (Some (Order.mk "u-diner" "u-bistro" None delivered None None)),
     Sample.rated).
Proof.
  apply (rating_for_nobody (λ _, true)
           (RatingRoute.mkBody (Some 0%float) None (Some 4%float) (Some "fast"))
           Sample.clock "o5" Sample.rated
           (Order.mk "u-diner" "u-bistro" None delivered None None));
    reflexivity.
Defined.


(** ** More on the rider's availability and location *)

Lemma rider_writes (b b' : option bool) (l l' : CurrentLocation.t)
    (stored : User.t) :
  User.role (available_as b stored) = User.role stored
  ∧ User.role (located_at l stored) = User.role stored
  ∧ available_as b' (available_as b stored) = available_as b' stored
  ∧ located_at l' (located_at l stored) = located_at l' stored.
Proof. by user_shapes stored. Qed.

(** The two writes in either order: the same document when a flag is
    given, and in any case the same document once it is read.  A flag
    that is [undefined] unsets the path, which a later write of the
    location stores again with its default. *)
Lemma rider_writes_commute (b : option bool) (l : CurrentLocation.t)
    (stored : User.t) :
  User.applyDefaults (located_at l (available_as b stored))
  = User.applyDefaults (available_as b (located_at l stored))
  ∧ (is_Some b →
     located_at l (available_as b stored) = available_as b (located_at l stored)).
Proof.
  split.
  - by user_shapes stored; destruct b.
  - intros [v ->]. by user_shapes stored.
Qed.

(** The rider that a [riderId] names after a write of one document that
    keeps its role. *)
Lemma named_rider_written riderId db id stored user' :
  users db !! id = Some stored → User.role user' = User.role stored →
  named_rider riderId (set_users (<[id := user']> (users db)) db)
  = match named_rider riderId db with
    | Some (id', stored') => Some (id', if decide (id' = id) then user' else stored')
    | None => None
    end.
Proof.
  intros Hs Hrole. unfold named_rider.
  destruct riderId as [[i|raw]|]; [| done ..]. cbn [users set_users].
  destruct (decide (i = id)) as [->|Hne].
  - rewrite lookup_insert_eq, Hs. simpl. rewrite Hrole.
    destruct (decide (User.role stored = Role.rider)); [| done].
    by rewrite decide_True.
  - rewrite lookup_insert_ne by done.
    destruct (users db !! i) as [u|]; [| done]. simpl.
    destruct (decide (User.role u = Role.rider)); [| done].
    by rewrite decide_False.
Qed.

Lemma db_users_id (db : DB) : set_users (users db) db = db.
Proof. by destruct db. Qed.

(** X19.  The last write wins: a second availability request for the same
    [riderId] leaves the store that it would have left alone, and so does
    a second location request; in particular repeating a request changes
    nothing more. *)
Theorem rider_last_write_wins
    (db : DB) (riderId : option IdParam)
    (caller1 caller2 : option (ObjectId * User.t)) :
  (∀ a1 a2,
     (RiderRoute.patch_availability
        (RiderRoute.mkRequest caller2 (RiderRoute.mkAvailabilityBody riderId a2))
        (RiderRoute.patch_availability
           (RiderRoute.mkRequest caller1 (RiderRoute.mkAvailabilityBody riderId a1))
           db).2).2
     = (RiderRoute.patch_availability
          (RiderRoute.mkRequest caller2 (RiderRoute.mkAvailabilityBody riderId a2))
          db).2)
  ∧ (∀ t1 t2 lat1 lon1 lat2 lon2,
       (RiderRoute.patch_location t2
          (RiderRoute.mkRequest caller2
             (RiderRoute.mkLocationBody riderId lat2 lon2))
          (RiderRoute.patch_location t1
             (RiderRoute.mkRequest caller1
                (RiderRoute.mkLocationBody riderId lat1 lon1))
             db).2).2
       = (RiderRoute.patch_location t2
            (RiderRoute.mkRequest caller2
               (RiderRoute.mkLocationBody riderId lat2 lon2))
            db).2).
Proof.
  split; intros.
  - rewrite !patch_availability_store.
    cbn [RiderRoute.body RiderRoute.av_riderId RiderRoute.isAvailable].
    destruct (named_rider riderId db) as [[id stored]|] eqn:Hn;
      [| by rewrite Hn].
    pose proof Hn as (_ & Hs & _)%named_rider_Some.
    rewrite (named_rider_written _ _ _ stored) by (done || apply rider_writes).
    rewrite Hn, decide_True by done. cbn [users set_users].
    rewrite insert_insert_eq.
    by destruct (rider_writes a1 a2 CurrentLocation.empty CurrentLocation.empty
                   stored) as (_ & _ & -> & _).
  - rewrite !patch_location_store.
    cbn [RiderRoute.body RiderRoute.loc_riderId RiderRoute.latitude
         RiderRoute.longitude].
    destruct (named_rider riderId db) as [[id stored]|] eqn:Hn;
      [| by rewrite Hn].
    pose proof Hn as (_ & Hs & _)%named_rider_Some.
    rewrite (named_rider_written _ _ _ stored) by (done || apply rider_writes).
    rewrite Hn, decide_True by done. cbn [users set_users].
    rewrite insert_insert_eq.
    by destruct (rider_writes None None
                   (CurrentLocation.mk lat1 lon1 (Some t1))
                   (CurrentLocation.mk lat2 lon2 (Some t2)) stored)
      as (_ & _ & _ & ->).
Qed.

(** The stores the two requests leave, in the two orders: the same one,
    or the same one but for the document of one rider, written with the
    two values in one order or the other. *)
Lemma rider_patches_orders
    (now : Date) (db : DB)
    (areq : RiderRoute.Request RiderRoute.AvailabilityBody)
    (lreq : RiderRoute.Request RiderRoute.LocationBody) :
  let b := RiderRoute.isAvailable (RiderRoute.body areq) in
  let l :=
    CurrentLocation.mk (RiderRoute.latitude (RiderRoute.body lreq))
      (RiderRoute.longitude (RiderRoute.body lreq)) (Some now) in
  let first_a :=
    (RiderRoute.patch_location now lreq (RiderRoute.patch_availability areq db).2).2 in
  let first_l :=
    (RiderRoute.patch_availability areq (RiderRoute.patch_location now lreq db).2).2 in
  first_a = first_l
  ∨ ∃ rid stored,
      first_a
      = set_users (<[rid := located_at l (available_as b stored)]> (users db)) db
      ∧ first_l
        = set_users (<[rid := available_as b (located_at l stored)]> (users db)) db.
Proof.
  cbv zeta. rewrite !patch_availability_store, !patch_location_store.
  set (b := RiderRoute.isAvailable (RiderRoute.body areq)).
  set (l := CurrentLocation.mk _ _ _).
  destruct (named_rider (RiderRoute.av_riderId (RiderRoute.body areq)) db)
    as [[ida sa]|] eqn:Ha;
  destruct (named_rider (RiderRoute.loc_riderId (RiderRoute.body lreq)) db)
    as [[idl sl]|] eqn:Hl.
  - pose proof Ha as (_ & Hsa & _)%named_rider_Some.
    pose proof Hl as (_ & Hsl & _)%named_rider_Some.
    rewrite (named_rider_written _ _ _ sa) by (done || apply rider_writes).
    rewrite (named_rider_written _ _ _ sl) by (done || apply rider_writes).
    rewrite Ha, Hl. cbn [users set_users].
    destruct (decide (idl = ida)) as [->|Hne].
    + assert (sl = sa) as -> by congruence.
      rewrite decide_True by done. rewrite !insert_insert_eq.
      right. by exists ida, sa.
    + rewrite decide_False by done. left. by rewrite insert_insert_ne.
  - pose proof Ha as (_ & Hsa & _)%named_rider_Some.
    rewrite (named_rider_written _ _ _ sa) by (done || apply rider_writes).
    left. by rewrite ?Ha, ?Hl.
  - pose proof Hl as (_ & Hsl & _)%named_rider_Some.
    rewrite (named_rider_written _ _ _ sl) by (done || apply rider_writes).
    left. by rewrite ?Ha, ?Hl.
  - left. by rewrite ?Ha, ?Hl.
Qed.

(** X20.  Availability and location are independent: the two requests,
    for the same rider or for two riders, leave the same store in either
    order when the availability request carries a flag, and in any case
    stores in which every handler reads the same accounts. *)
Theorem rider_patches_commute
    (now : Date) (db : DB)
    (areq : RiderRoute.Request RiderRoute.AvailabilityBody)
    (lreq : RiderRoute.Request RiderRoute.LocationBody) :
  let first_a :=
    (RiderRoute.patch_location now lreq (RiderRoute.patch_availability areq db).2).2 in
  let first_l :=
    (RiderRoute.patch_availability areq (RiderRoute.patch_location now lreq db).2).2 in
  (is_Some (RiderRoute.isAvailable (RiderRoute.body areq)) → first_a = first_l)
  ∧ (∀ id, User_findById id first_a = User_findById id first_l)
  ∧ orders first_a = orders first_l
  ∧ menuItems first_a = menuItems first_l
  ∧ wishlists first_a = wishlists first_l.
Proof.
  cbv zeta.
  destruct (rider_patches_orders now db areq lreq)
    as [-> | (rid & stored & -> & ->)]; [done |].
  destruct (rider_writes_commute
              (RiderRoute.isAvailable (RiderRoute.body areq))
              (CurrentLocation.mk (RiderRoute.latitude (RiderRoute.body lreq))
                 (RiderRoute.longitude (RiderRoute.body lreq)) (Some now))
              stored) as [Hread Hsame].
  split; [by intros ->%Hsame | split; [| done]].
  intros id. unfold User_findById. cbn [users set_users].
  destruct (decide (rid = id)) as [<-|Hne].
  - rewrite !lookup_insert_eq. cbn [fmap option_fmap option_map]. by rewrite Hread.
  - by rewrite !lookup_insert_ne.
Qed.

Lemma rider_patches_commute_witness :
  let areq :=
    RiderRoute.mkRequest None
      (RiderRoute.mkAvailabilityBody (Some (WellFormed "u-courier")) (Some true)) in
  let lreq :=
    RiderRoute.mkRequest None
      (RiderRoute.mkLocationBody (Some (WellFormed "u-courier"))
         (Some 12.5%float) (Some 77.5%float)) in
  (RiderRoute.patch_location Sample.clock lreq
     (RiderRoute.patch_availability areq Sample.busy).2).2
  = (RiderRoute.patch_availability areq
       (RiderRoute.patch_location Sample.clock lreq Sample.busy).2).2.
Proof.
  cbv zeta.
  apply (rider_patches_commute Sample.clock Sample.busy
           (RiderRoute.mkRequest None
              (RiderRoute.mkAvailabilityBody (Some (WellFormed "u-courier"))
                 (Some true)))
           (RiderRoute.mkRequest None
              (RiderRoute.mkLocationBody (Some (WellFormed "u-courier"))
                 (Some 12.5%float) (Some 77.5%float)))).
  by exists true.
Defined.

(** Without a flag the two orders do leave two stores: the availability
    request unsets the path, and only a location request that comes after
    it stores the default again. *)
Lemma rider_patches_unset_flag :
  let areq :=
    RiderRoute.mkRequest None
      (RiderRoute.mkAvailabilityBody (Some (WellFormed "u-courier")) None) in
  let lreq :=
    RiderRoute.mkRequest None
      (RiderRoute.mkLocationBody (Some (WellFormed "u-courier"))
         (Some 12.5%float) (Some 77.5%float)) in
  let stored_flag (db : DB) :=
    (users db !! "u-courier" ≫= User.riderDetails) ≫= RiderDetails.isAvailable in
  stored_flag
    (RiderRoute.patch_location Sample.clock lreq
       (RiderRoute.patch_availability areq Sample.busy).2).2 = Some false
  ∧ stored_flag
      (RiderRoute.patch_availability areq
         (RiderRoute.patch_location Sample.clock lreq Sample.busy).2).2 = None.
Proof. cbv zeta. split; vm_compute; reflexivity. Qed.

(** What a reader of the accounts sees after a write of one document:
    the fields named below are those of the document written, for its id,
    and those of before for every other id. *)
Lemma rider_written_read (db : DB) (rid : ObjectId) (stored user' : User.t) :
  users db !! rid = Some stored →
  User.role user' = User.role stored → User.name user' = User.name stored →
  User.restaurantDetails (User.applyDefaults user')
    = User.restaurantDetails (User.applyDefaults stored) →
  rider_aggregate user' = rider_aggregate stored →
  let db' := set_users (<[rid := user']> (users db)) db in
  orders db' = orders db ∧ menuItems db' = menuItems db
  ∧ wishlists db' = wishlists db
  ∧ ∀ id,
      User.role <$> users db' !! id = User.role <$> users db !! id
      ∧ User.name <$> users db' !! id = User.name <$> users db !! id
      ∧ User_findById id db' ≫= User.restaurantDetails
        = User_findById id db ≫= User.restaurantDetails
      ∧ rider_rating id db' = rider_rating id db
      ∧ (id ≠ rid → users db' !! id = users db !! id).
Proof.
  intros Hs Hrole Hname Hrest Hrating. cbv zeta.
  split; [done | split; [done | split; [done |]]].
  intros id. unfold rider_rating, User_findById. cbn [users set_users].
  destruct (decide (rid = id)) as [<-|Hne].
  - rewrite !lookup_insert_eq, Hs. simpl.
    rewrite Hrole, Hname, Hrating. repeat split; done.
  - by rewrite !lookup_insert_ne.
Qed.

Lemma rider_writes_read (b : option bool) (l : CurrentLocation.t)
    (stored : User.t) :
  (User.name (available_as b stored) = User.name stored
   ∧ User.restaurantDetails (User.applyDefaults (available_as b stored))
     = User.restaurantDetails (User.applyDefaults stored)
   ∧ rider_aggregate (available_as b stored) = rider_aggregate stored
   ∧ (User.riderDetails (User.applyDefaults (available_as b stored)))
       ≫= RiderDetails.currentLocation
     = (User.riderDetails (User.applyDefaults stored))
         ≫= RiderDetails.currentLocation)
  ∧ (User.name (located_at l stored) = User.name stored
     ∧ User.restaurantDetails (User.applyDefaults (located_at l stored))
       = User.restaurantDetails (User.applyDefaults stored)
     ∧ rider_aggregate (located_at l stored) = rider_aggregate stored
     ∧ (User.riderDetails (User.applyDefaults (located_at l stored)))
         ≫= RiderDetails.isAvailable
       = (User.riderDetails (User.applyDefaults stored))
           ≫= RiderDetails.isAvailable).
Proof. by user_shapes stored. Qed.

(** X21.  Neither request touches anything but its own field: the orders,
    the menu items and the wishlists are as before, no account appears,
    disappears or changes its role or name, and what a handler reads of
    an account (the stored fields, the defaults of the schema where
    nothing is stored) is as before in the restaurant details and the
    rider's rating; the availability request keeps every location and
    the location request every availability flag. *)
Theorem rider_patches_write_one_field
    (now : Date) (db : DB)
    (areq : RiderRoute.Request RiderRoute.AvailabilityBody)
    (lreq : RiderRoute.Request RiderRoute.LocationBody) :
  let after_a := (RiderRoute.patch_availability areq db).2 in
  let after_l := (RiderRoute.patch_location now lreq db).2 in
  (orders after_a = orders db ∧ menuItems after_a = menuItems db
   ∧ wishlists after_a = wishlists db
   ∧ ∀ id, User.role <$> users after_a !! id = User.role <$> users db !! id
           ∧ User.name <$> users after_a !! id = User.name <$> users db !! id
           ∧ User_findById id after_a ≫= User.restaurantDetails
             = User_findById id db ≫= User.restaurantDetails
           ∧ rider_rating id after_a = rider_rating id db
           ∧ rider_location id after_a = rider_location id db)
  ∧ (orders after_l = orders db ∧ menuItems after_l = menuItems db
     ∧ wishlists after_l = wishlists db
     ∧ ∀ id, User.role <$> users after_l !! id = User.role <$> users db !! id
             ∧ User.name <$> users after_l !! id = User.name <$> users db !! id
             ∧ User_findById id after_l ≫= User.restaurantDetails
               = User_findById id db ≫= User.restaurantDetails
             ∧ rider_rating id after_l = rider_rating id db
             ∧ rider_isAvailable id after_l = rider_isAvailable id db).
Proof.
  cbv zeta. rewrite patch_availability_store, patch_location_store.
  set (b := RiderRoute.isAvailable (RiderRoute.body areq)).
  set (l := CurrentLocation.mk _ _ _).
  split.
  - destruct (named_rider _ db) as [[rid stored]|] eqn:Hn; [| done].
    apply named_rider_Some in Hn as (_ & Hs & _).
    destruct (rider_writes b b l l stored) as (Hrole & _).
    destruct (rider_writes_read b l stored) as ((Hname & Hrest & Hrating & Hloc) & _).
    destruct (rider_written_read db rid stored (available_as b stored)
                Hs Hrole Hname Hrest Hrating) as (? & ? & ? & Hread).
    split; [done | split; [done | split; [done |]]].
    intros id. destruct (Hread id) as (? & ? & ? & ? & Hother).
    split; [done | split; [done | split; [done | split; [done |]]]].
    unfold rider_location, User_findById. cbn [users set_users].
    destruct (decide (id = rid)) as [->|Hne].
    + rewrite lookup_insert_eq, Hs. exact Hloc.
    + by rewrite lookup_insert_ne.
  - destruct (named_rider _ db) as [[rid stored]|] eqn:Hn; [| done].
    apply named_rider_Some in Hn as (_ & Hs & _).
    destruct (rider_writes b b l l stored) as (_ & Hrole & _).
    destruct (rider_writes_read b l stored) as (_ & (Hname & Hrest & Hrating & Hav)).
    destruct (rider_written_read db rid stored (located_at l stored)
                Hs Hrole Hname Hrest Hrating) as (? & ? & ? & Hread).
    split; [done | split; [done | split; [done |]]].
    intros id. destruct (Hread id) as (? & ? & ? & ? & Hother).
    split; [done | split; [done | split; [done | split; [done |]]]].
    unfold rider_isAvailable, User_findById. cbn [users set_users].
    destruct (decide (id = rid)) as [->|Hne].
    + rewrite lookup_insert_eq, Hs. exact Hav.
    + by rewrite lookup_insert_ne.
Qed.

(** ** More on the wishlists *)

Lemma findOne_Some id userId db w :
  WishlistRoute.findOne id userId db = Some w
  ↔ wishlists db !! id = Some w ∧ Wishlist.user w = userId.
Proof.
  unfold WishlistRoute.findOne.
  destruct (wishlists db !! id) as [w0|]; simpl; [| by split; [| intros []]].
  destruct (decide (Wishlist.user w0 = userId)) as [Hu|Hu]; split.
  - intros [= ->]. by split.
  - by intros [[= ->] _].
  - done.
  - intros [[= ->] ?]. by destruct Hu.
Qed.

Lemma findOne_other id userId db w :
  wishlists db !! id = Some w → Wishlist.user w ≠ userId →
  WishlistRoute.findOne id userId db = None.
Proof.
  intros Hw Hne. unfold WishlistRoute.findOne. rewrite Hw. simpl.
  by case_decide.
Qed.

Lemma add_item_store now userId id body db :
  (WishlistRoute.add_item now userId id body db).2 = db.
Proof.
  unfold WishlistRoute.add_item.
  destruct (WishlistRoute.findOne id userId db) as [wishlist|]; [| done].
  unfold WishlistRoute.add_to_wishlist.
  destruct (WishlistRoute.menuItem body ≫= _) as [[menuItem menuItemDoc]|];
    done.
Qed.

Lemma cast_items_valid items items' :
  mapM WishlistAdmin.cast_item items = Some items' →
  WishlistRoute.quantities_valid items' = true.
Proof.
  rewrite mapM_Some. induction 1 as [|i i' items items' Hi _ IH]; [done |].
  unfold WishlistAdmin.cast_item in Hi.
  destruct (WishlistRoute.menuItem i) as [m|]; [| done]. simpl in Hi.
  destruct (PrimFloat.leb 1 _) eqn:Hq; [| done]. injection Hi as <-.
  unfold WishlistRoute.quantities_valid in *. simpl. by rewrite Hq, IH.
Qed.

(** What a creation answered 201 has done. *)
Lemma create_wishlist_201 now new_id userId body db :
  code (WishlistAdmin.create_wishlist now new_id userId body db).1 = 201 →
  ∃ name restaurant items items' restaurantDoc,
    let wishlist :=
      Wishlist.mk userId (MenuRoute.trim name) restaurant items' now in
    let db' := set_wishlists (<[new_id := wishlist]> (wishlists db)) db in
    WishlistAdmin.body_name body = Some name
    ∧ WishlistAdmin.body_restaurant body = Some restaurant
    ∧ WishlistAdmin.body_items body = Some items
    ∧ mapM WishlistAdmin.cast_item items = Some items'
    ∧ MenuRoute.trim name ≠ ""
    ∧ users db !! restaurant = Some restaurantDoc
    ∧ User.role restaurantDoc = Role.restaurant
    ∧ wishlists db !! new_id = None
    ∧ WishlistAdmin.create_wishlist now new_id userId body db
      = (mkResponse 201 true "Wishlist created successfully"
           (Some (WishlistAdmin.populate wishlist db')), db').
Proof.
  unfold WishlistAdmin.create_wishlist.
  destruct (WishlistAdmin.body_name body) as [name|]; [| done].
  destruct (WishlistAdmin.body_restaurant body) as [restaurant|]; [| done].
  destruct (WishlistAdmin.body_items body) as [[|item items]|]; [done | | done].
  case_decide; [done |]. case_decide; [done |].
  destruct (users db !! restaurant) as [restaurantDoc|] eqn:Hu; [| done].
  case_decide as Hrole; [done |].
  destruct (mapM _ (item :: items)) as [items'|] eqn:Hitems; [| done].
  case_decide as Hname; [done |].
  destruct (wishlists db !! new_id) eqn:Hnew; [done |].
  intros _. by exists name, restaurant, (item :: items), items', restaurantDoc.
Qed.

(** X22.  A wishlist is private to its owner: for anybody else it does not
    exist.  Reading it, renaming it, deleting it and adding to it are
    answered without success, never 200, and the store stays as it is. *)
Theorem wishlist_of_another_user
    (now : Date) (userId id : ObjectId) (w : Wishlist.t)
    (name : option string) (body : WishlistRoute.Body) (db : DB) :
  wishlists db !! id = Some w → Wishlist.user w ≠ userId →
  WishlistAdmin.get_wishlist userId id db
    = mkResponse 404 false "Wishlist not found" None
  ∧ WishlistAdmin.delete_wishlist userId id db
    = (mkResponse 404 false "Wishlist not found" None, db)
  ∧ WishlistRoute.add_item now userId id body db
    = (mkResponse 404 false "Wishlist not found" None, db)
  ∧ (WishlistAdmin.rename now userId id name db).2 = db
  ∧ success (WishlistAdmin.rename now userId id name db).1 = false
  ∧ payload (WishlistAdmin.rename now userId id name db).1 = None.
Proof.
  intros Hw Hne. pose proof (findOne_other _ _ _ _ Hw Hne) as Hnone.
  unfold WishlistAdmin.get_wishlist, WishlistAdmin.delete_wishlist,
    WishlistRoute.add_item, WishlistAdmin.rename.
  rewrite Hnone. by destruct (negb (Js.truthy_str name)).
Qed.

Lemma wishlist_of_another_user_witness :
  (wishlists Sample.catalog !! "w1" = Some Sample.shortlist
   ∧ Wishlist.user Sample.shortlist ≠ "u-courier")
  ∧ WishlistAdmin.get_wishlist "u-courier" "w1" Sample.catalog
    = mkResponse 404 false "Wishlist not found" None.
Proof.
  assert (wishlists Sample.catalog !! "w1" = Some Sample.shortlist) as Hw
    by (vm_compute; reflexivity).
  assert (Wishlist.user Sample.shortlist ≠ "u-courier") as Hne
    by (vm_compute; discriminate).
  split; [done |].
  apply (wishlist_of_another_user Sample.clock "u-courier" "w1" Sample.shortlist
           (Some "Mine")
           (WishlistRoute.mkBody (Some "m1") None None None)
           Sample.catalog Hw Hne).
Defined.

(** X23.  No request of one user changes or removes a wishlist of another
    user, whatever the request names: neither a creation, nor a renaming,
    nor a deletion, nor an added item. *)
Theorem wishlist_routes_keep_others
    (now : Date) (userId id new_id : ObjectId) (name : option string)
    (item : WishlistRoute.Body) (body : WishlistAdmin.Body) (db : DB)
    (id' : ObjectId) (w' : Wishlist.t) :
  wishlists db !! id' = Some w' → Wishlist.user w' ≠ userId →
  wishlists (WishlistAdmin.create_wishlist now new_id userId body db).2 !! id'
    = Some w'
  ∧ wishlists (WishlistAdmin.rename now userId id name db).2 !! id' = Some w'
  ∧ wishlists (WishlistAdmin.delete_wishlist userId id db).2 !! id' = Some w'
  ∧ wishlists (WishlistRoute.add_item now userId id item db).2 !! id' = Some w'.
Proof.
  intros Hw' Hne.
  assert (∀ w, WishlistRoute.findOne id userId db = Some w → id ≠ id') as Hid.
  { intros w [Hw Hu]%findOne_Some ->. congruence. }
  repeat split.
  - destruct (decide (code (WishlistAdmin.create_wishlist now new_id userId body
                              db).1 = 201)) as [Hc|Hc].
    + apply create_wishlist_201 in Hc
        as (n & r & its & its' & rd & _ & _ & _ & _ & _ & _ & _ & Hnew & ->).
      simpl. rewrite lookup_insert_ne; [done | congruence].
    + revert Hc. unfold WishlistAdmin.create_wishlist.
      repeat (case_match; try done).
  - unfold WishlistAdmin.rename.
    destruct (negb (Js.truthy_str name)); [done |].
    destruct (WishlistRoute.findOne id userId db) as [w|] eqn:Hf; [| done].
    case_decide; [done |]. simpl. rewrite lookup_insert_ne; eauto.
  - unfold WishlistAdmin.delete_wishlist.
    destruct (WishlistRoute.findOne id userId db) as [w|] eqn:Hf; [| done].
    simpl. rewrite lookup_delete_ne; eauto.
  - by rewrite add_item_store.
Qed.

Lemma wishlist_routes_keep_others_witness :
  (wishlists Sample.catalog !! "w1" = Some Sample.shortlist
   ∧ Wishlist.user Sample.shortlist ≠ "u-courier")
  ∧ wishlists (WishlistAdmin.delete_wishlist "u-courier" "w1" Sample.catalog).2
      !! "w1" = Some Sample.shortlist.
Proof.
  assert (wishlists Sample.catalog !! "w1" = Some Sample.shortlist) as Hw
    by (vm_compute; reflexivity).
  assert (Wishlist.user Sample.shortlist ≠ "u-courier") as Hne
    by (vm_compute; discriminate).
  split; [done |].
  apply (wishlist_routes_keep_others Sample.clock "u-courier" "w1" "w1"
           (Some "Mine") (WishlistRoute.mkBody (Some "m1") None None None)
           Fixture.mixed_wishlist Sample.catalog "w1" Sample.shortlist Hw Hne).
Defined.

(** X24.  A renaming that succeeds changes the name and the time stamp
    only: read back by its owner, the wishlist carries the trimmed name and
    the items, the restaurant and the populated references it carried
    before. *)
Theorem rename_then_get
    (now : Date) (userId id : ObjectId) (name : option string) (db : DB) :
  code (WishlistAdmin.rename now userId id name db).1 = 200 →
  ∃ before after,
    payload (WishlistAdmin.get_wishlist userId id db) = Some before
    ∧ payload (WishlistAdmin.get_wishlist userId id
                 (WishlistAdmin.rename now userId id name db).2) = Some after
    ∧ payload (WishlistAdmin.rename now userId id name db).1
      = Some (WishlistAdmin.wishlist after)
    ∧ Some (Wishlist.name (WishlistAdmin.wishlist after))
      = MenuRoute.trim <$> name
    ∧ Wishlist.updatedAt (WishlistAdmin.wishlist after) = now
    ∧ Wishlist.user (WishlistAdmin.wishlist after)
      = Wishlist.user (WishlistAdmin.wishlist before)
    ∧ Wishlist.restaurant (WishlistAdmin.wishlist after)
      = Wishlist.restaurant (WishlistAdmin.wishlist before)
    ∧ Wishlist.items (WishlistAdmin.wishlist after)
      = Wishlist.items (WishlistAdmin.wishlist before)
    ∧ WishlistAdmin.restaurant after = WishlistAdmin.restaurant before
    ∧ WishlistAdmin.items_menuItem after = WishlistAdmin.items_menuItem before.
Proof.
  unfold WishlistAdmin.rename, WishlistAdmin.get_wishlist.
  destruct name as [name|]; [| done]. simpl.
  case_decide; [done |]. simpl.
  destruct (WishlistRoute.findOne id userId db) as [w|] eqn:Hf; [| done].
  case_decide; [done |]. simpl. intros _.
  apply findOne_Some in Hf as [Hw Hu].
  unfold WishlistRoute.findOne. simpl. rewrite lookup_insert_eq. simpl.
  rewrite decide_True by done. simpl.
  eexists _, _. repeat split; reflexivity.
Qed.

Lemma rename_then_get_witness :
  code (WishlistAdmin.rename Sample.clock "u-diner" "w1" (Some " Weekend ")
          Sample.catalog).1 = 200
  ∧ ∃ after,
      payload (WishlistAdmin.get_wishlist "u-diner" "w1"
                 (WishlistAdmin.rename Sample.clock "u-diner" "w1"
                    (Some " Weekend ") Sample.catalog).2) = Some after
      ∧ Wishlist.name (WishlistAdmin.wishlist after) = "Weekend".
Proof.
  assert (code (WishlistAdmin.rename Sample.clock "u-diner" "w1"
                  (Some " Weekend ") Sample.catalog).1 = 200) as Hc
    by (vm_compute; reflexivity).
  split; [done |].
  destruct (rename_then_get Sample.clock "u-diner" "w1" (Some " Weekend ")
              Sample.catalog Hc)
    as (before & after & _ & Hafter & _ & Hname & _).
  exists after. split; [done |]. by injection Hname.
Defined.

(** X25.  A name of white space only is not rejected as missing: it
    passes the check of the handler, is trimmed to nothing by the schema
    and fails the validation of [save], so the renaming of one's own
    wishlist and the creation are answered 500, not 400, and nothing is
    stored. *)
Theorem blank_wishlist_name
    (now : Date) (userId id new_id : ObjectId) (name : string)
    (w : Wishlist.t) (restaurant : ObjectId) (restaurantDoc : User.t)
    (item : WishlistRoute.Body) (items : list WishlistRoute.Body)
    (items' : list WishlistItem.t) (db : DB) :
  name ≠ "" → MenuRoute.trim name = "" →
  (WishlistRoute.findOne id userId db = Some w →
   WishlistAdmin.rename now userId id (Some name) db
   = (mkResponse 500 false "Failed to update wishlist name" None, db))
  ∧ (restaurant ≠ "" →
     users db !! restaurant = Some restaurantDoc →
     User.role restaurantDoc = Role.restaurant →
     mapM WishlistAdmin.cast_item (item :: items) = Some items' →
     WishlistAdmin.create_wishlist now new_id userId
       (WishlistAdmin.mkBody (Some name) (Some restaurant) (Some (item :: items)))
       db
     = (mkResponse 500 false "Failed to create wishlist" None, db)).
Proof.
  intros Hname Hblank. split.
  - intros Hf. unfold WishlistAdmin.rename. simpl.
    rewrite decide_False by done. simpl. rewrite Hf. simpl.
    by rewrite decide_True.
  - intros Hr Hu Hrole Hitems. unfold WishlistAdmin.create_wishlist.
    cbn [WishlistAdmin.body_name WishlistAdmin.body_restaurant
         WishlistAdmin.body_items].
    rewrite !decide_False, Hu by done.
    rewrite decide_False by (by intros []).
    rewrite Hitems. cbn [Wishlist.name]. by rewrite decide_True.
Qed.

Lemma blank_wishlist_name_witness :
  ("   " ≠ "" ∧ MenuRoute.trim "   " = "")
  ∧ WishlistAdmin.rename Sample.clock "u-diner" "w1" (Some "   ") Sample.catalog
    = (mkResponse 500 false "Failed to update wishlist name" None,
       Sample.catalog)
  ∧ WishlistAdmin.create_wishlist Sample.clock "w2" "u-diner"
      (WishlistAdmin.mkBody (Some "   ") (Some "u-kitchen")
         (Some [WishlistRoute.mkBody (Some "m1") None None None]))
      Sample.catalog
    = (mkResponse 500 false "Failed to create wishlist" None, Sample.catalog).
Proof.
  assert ("   " ≠ "") as Hname by discriminate.
  assert (MenuRoute.trim "   " = "") as Hblank by (vm_compute; reflexivity).
  split; [done |].
  destruct (blank_wishlist_name Sample.clock "u-diner" "w1" "w2" "   "
              Sample.shortlist "u-kitchen" Sample.kitchen
              (WishlistRoute.mkBody (Some "m1") None None None) []
              [WishlistItem.mk "m1" None None 1%float]
              Sample.catalog Hname Hblank) as [Hrename Hcreate].
  split.
  - apply Hrename. vm_compute. reflexivity.
  - apply Hcreate; [discriminate | vm_compute; reflexivity ..].
Defined.

(** X26.  The creation never looks at the menu: whatever the menu
    collection holds, the answer has the same status and message and the
    same wishlist is stored.  The items are neither required to exist nor
    to belong to the restaurant of the wishlist. *)
Theorem create_ignores_the_menu
    (now : Date) (new_id userId : ObjectId) (body : WishlistAdmin.Body)
    (db : DB) (menu : gmap string MenuItem.t) :
  let here := WishlistAdmin.create_wishlist now new_id userId body db in
  let there :=
    WishlistAdmin.create_wishlist now new_id userId body (set_menuItems menu db) in
  code there.1 = code here.1
  ∧ message there.1 = message here.1
  ∧ WishlistAdmin.wishlist <$> payload there.1
    = WishlistAdmin.wishlist <$> payload here.1
  ∧ wishlists there.2 = wishlists here.2.
Proof.
  cbv zeta. unfold WishlistAdmin.create_wishlist.
  destruct (WishlistAdmin.body_name body) as [name|]; [| done].
  destruct (WishlistAdmin.body_restaurant body) as [restaurant|]; [| done].
  destruct (WishlistAdmin.body_items body) as [[|item items]|]; [done | | done].
  case_decide; [done |]. case_decide; [done |].
  cbn [users set_menuItems wishlists].
  destruct (users db !! restaurant) as [restaurantDoc|]; [| done].
  case_decide; [done |].
  destruct (mapM _ (item :: items)) as [items'|]; [| done].
  case_decide; [done |].
  by destruct (wishlists db !! new_id).
Qed.

(** X27.  A creation answered 201 can be read back: the owner gets, under
    the new id, the populated wishlist the creation returned, it is theirs,
    its restaurant is a user with the role restaurant, and every other
    user is answered 404. *)
Theorem create_then_get
    (now : Date) (new_id userId : ObjectId) (body : WishlistAdmin.Body)
    (db : DB) :
  let created := WishlistAdmin.create_wishlist now new_id userId body db in
  code created.1 = 201 →
  (∃ p, payload created.1 = Some p
        ∧ WishlistAdmin.get_wishlist userId new_id created.2
          = mkResponse 200 true "" (Some p)
        ∧ Wishlist.user (WishlistAdmin.wishlist p) = userId
        ∧ Some (Wishlist.restaurant (WishlistAdmin.wishlist p))
          = WishlistAdmin.body_restaurant body
        ∧ User.role <$> users db !! Wishlist.restaurant (WishlistAdmin.wishlist p)
          = Some Role.restaurant)
  ∧ ∀ other, other ≠ userId →
      WishlistAdmin.get_wishlist other new_id created.2
      = mkResponse 404 false "Wishlist not found" None.
Proof.
  cbv zeta. intros Hc.
  apply create_wishlist_201 in Hc
    as (n & r & its & its' & rd & Hn & Hr & Hits & Hcast & Hname & Hu & Hrole
        & Hnew & ->).
  cbn [fst snd payload]. unfold WishlistAdmin.get_wishlist, WishlistRoute.findOne.
  cbn [wishlists set_wishlists]. rewrite lookup_insert_eq. simpl. split.
  - eexists. split; [reflexivity |]. rewrite decide_True by done.
    repeat split; try done; simpl; rewrite ?Hu; simpl; congruence.
  - intros other Hother. by rewrite decide_False.
Qed.

Lemma create_then_get_witness :
  code (WishlistAdmin.create_wishlist Sample.clock "w2" "u-diner"
          Fixture.mixed_wishlist Sample.catalog).1 = 201
  ∧ ∀ other, other ≠ "u-diner" →
      WishlistAdmin.get_wishlist other "w2"
        (WishlistAdmin.create_wishlist Sample.clock "w2" "u-diner"
           Fixture.mixed_wishlist Sample.catalog).2
      = mkResponse 404 false "Wishlist not found" None.
Proof.
  assert (code (WishlistAdmin.create_wishlist Sample.clock "w2" "u-diner"
                  Fixture.mixed_wishlist Sample.catalog).1 = 201) as Hc
    by (vm_compute; reflexivity).
  split; [done |].
  apply (create_then_get Sample.clock "w2" "u-diner" Fixture.mixed_wishlist
           Sample.catalog Hc).
Defined.

(** X28.  A deleted wishlist is gone for its owner too: reading it and
    deleting it once more are answered 404, the second deletion changes
    nothing, and the users, the orders and the menu are not touched. *)
Theorem delete_then_gone_wishlist
    (userId id : ObjectId) (w : Wishlist.t) (db : DB) :
  WishlistRoute.findOne id userId db = Some w →
  let db' := (WishlistAdmin.delete_wishlist userId id db).2 in
  code (WishlistAdmin.delete_wishlist userId id db).1 = 200
  ∧ wishlists db' !! id = None
  ∧ WishlistAdmin.get_wishlist userId id db'
    = mkResponse 404 false "Wishlist not found" None
  ∧ WishlistAdmin.delete_wishlist userId id db'
    = (mkResponse 404 false "Wishlist not found" None, db')
  ∧ users db' = users db ∧ orders db' = orders db
  ∧ menuItems db' = menuItems db.
Proof.
  intros Hf. cbv zeta.
  assert (WishlistAdmin.delete_wishlist userId id db
          = (mkResponse 200 true "Wishlist deleted successfully" None,
             set_wishlists (delete id (wishlists db)) db)) as ->
    by (unfold WishlistAdmin.delete_wishlist; by rewrite Hf).
  cbn [fst snd code].
  unfold WishlistAdmin.get_wishlist, WishlistAdmin.delete_wishlist,
    WishlistRoute.findOne.
  cbn [wishlists set_wishlists]. rewrite lookup_delete_eq. by simpl.
Qed.

Lemma delete_then_gone_wishlist_witness :
  WishlistRoute.findOne "w1" "u-diner" Sample.catalog = Some Sample.shortlist
  ∧ WishlistAdmin.get_wishlist "u-diner" "w1"
      (WishlistAdmin.delete_wishlist "u-diner" "w1" Sample.catalog).2
    = mkResponse 404 false "Wishlist not found" None.
Proof.
  assert (WishlistRoute.findOne "w1" "u-diner" Sample.catalog
          = Some Sample.shortlist) as Hf by (vm_compute; reflexivity).
  split; [done |].
  apply (delete_then_gone_wishlist "u-diner" "w1" Sample.shortlist
           Sample.catalog Hf).
Defined.

(** X29.  The wishlist routes keep the stored wishlists well formed: if
    each has a name, a restaurant with the role restaurant and quantities
    of at least 1, this still holds after a creation, a renaming, a
    deletion and an added item. *)
Theorem wishlist_routes_keep_wellformed
    (now : Date) (userId id new_id : ObjectId) (name : option string)
    (item : WishlistRoute.Body) (body : WishlistAdmin.Body) (db : DB) :
  wishlists_wellformed db →
  wishlists_wellformed (WishlistAdmin.create_wishlist now new_id userId body db).2
  ∧ wishlists_wellformed (WishlistAdmin.rename now userId id name db).2
  ∧ wishlists_wellformed (WishlistAdmin.delete_wishlist userId id db).2
  ∧ wishlists_wellformed (WishlistRoute.add_item now userId id item db).2.
Proof.
  intros Hwf. split; [| split; [| split]].
  - destruct (decide (code (WishlistAdmin.create_wishlist now new_id userId body
                              db).1 = 201)) as [Hc|Hc].
    + apply create_wishlist_201 in Hc
        as (n & r & its & its' & rd & _ & _ & _ & Hcast & Hname & Hu & Hrole
            & Hnew & ->).
      cbn [snd]. intros i w. cbn [wishlists users set_wishlists].
      destruct (decide (new_id = i)) as [<-|Hne].
      * rewrite lookup_insert_eq. intros [= <-]. simpl.
        rewrite Hu. simpl. rewrite Hrole.
        repeat split; [done .. |]. by eapply cast_items_valid.
      * rewrite lookup_insert_ne by done. apply Hwf.
    + assert ((WishlistAdmin.create_wishlist now new_id userId body db).2 = db)
        as ->; [| done].
      revert Hc. unfold WishlistAdmin.create_wishlist.
      repeat (case_match; try done).
  - unfold WishlistAdmin.rename.
    destruct (negb (Js.truthy_str name)); [done |].
    destruct (WishlistRoute.findOne id userId db) as [w|] eqn:Hf; [| done].
    case_decide as Hname; [done |]. cbn [snd]. intros i w'.
    cbn [wishlists users set_wishlists].
    apply findOne_Some in Hf as [Hw _]. destruct (Hwf id w Hw) as (_ & ? & ?).
    destruct (decide (id = i)) as [<-|Hne].
    + rewrite lookup_insert_eq. by intros [= <-].
    + rewrite lookup_insert_ne by done. apply Hwf.
  - unfold WishlistAdmin.delete_wishlist.
    destruct (WishlistRoute.findOne id userId db) as [w|]; [| done].
    cbn [snd]. intros i w'. cbn [wishlists users set_wishlists].
    intros [_ Hi]%lookup_delete_Some. by apply (Hwf i w').
  - by rewrite add_item_store.
Qed.

Lemma wishlist_routes_keep_wellformed_witness :
  wishlists_wellformed Sample.catalog
  ∧ wishlists_wellformed
      (WishlistAdmin.create_wishlist Sample.clock "w2" "u-diner"
         Fixture.mixed_wishlist Sample.catalog).2.
Proof.
  assert (wishlists_wellformed Sample.catalog) as Hwf.
  { intros i w Hi.
    assert (i = "w1" ∧ w = Sample.shortlist) as [-> ->].
    { change (wishlists Sample.catalog) with (<["w1" := Sample.shortlist]>
        (∅ : gmap string Wishlist.t)) in Hi.
      apply lookup_insert_Some in Hi as [[<- <-]|[_ Hi]]; [done |].
      by rewrite lookup_empty in Hi. }
    repeat split; vm_compute; [discriminate | reflexivity ..]. }
  split; [done |].
  apply (wishlist_routes_keep_wellformed Sample.clock "u-diner" "w1" "w2"
           (Some "Mine") (WishlistRoute.mkBody (Some "m1") None None None)
           Fixture.mixed_wishlist Sample.catalog Hwf).
Defined.
